(** * The local service of ZenML: a registry of named components

    A shallow embedding of [zenml/core/local_service.py].  The class
    [LocalService] keeps three dictionaries (providers, artifact stores,
    metadata stores; a fourth one for orchestrators is declared and never
    used), and every method either reads them, or changes one of them and
    writes the service back to its file.

    The methods are embedded as computations in a small monad that threads
    the service object, may raise a Python exception, and records every call
    that leaves the class (logger, component [update()]/[delete()],
    [source_utils.resolve_class], [self.update()], [super().delete()])
    together with the state of the service at the moment of the call.

    The module [Stored] embeds the same methods a second time, with the
    persisted state of the stores and of the service in the state, for the
    properties that depend on what a store's [delete()] destroys. *)

From stdpp Require Import gmap strings list fin_maps.

(** ** Values *)

(** [uuid.UUID]: a 128-bit number; only its identity is used here. *)
Definition UUID : Type := N.

(** [mapping_utils.UUIDSourceTuple]: what the service remembers about an
    artifact or metadata store. *)
Record UUIDSourceTuple : Type := mkUUIDSourceTuple {
  uuid : UUID;
  source : string
}.

(** The exceptions the methods can raise.  [KeyError] is what a dictionary
    subscript or [del] raises on a missing key.  [ComponentError] stands for
    the failure of the component resolver to rebuild the instance with the
    given identifier (in the program a validation error of the component
    class), which the service lets through unchanged. *)
Inductive PyException : Type :=
| DoesNotExistException (message : string)
| AlreadyExistsException (message : string)
| KeyError (key : string)
| ComponentError (instance : UUID).

Inductive LogLevel : Type := DEBUG | INFO.

(** How a method call ends: with a value, or with an exception. *)
Inductive Outcome (A : Type) : Type :=
| Return (a : A)
| Raise (e : PyException).
Arguments Return {A} a.
Arguments Raise {A} e.

(** ** What the module imports

    The component classes, [source_utils], [mapping_utils] and the
    formatting of Python values live outside [local_service.py]; the service
    is parametric in them. *)
Class Environment : Type := {
  (** instances of [BaseProvider] *)
  Provider : Type;
  (** instances of [BaseArtifactStore] and [BaseMetadataStore] *)
  Component : Type;
  (** Python classes, as [obj.__class__] yields them *)
  PyClass : Type;
  (** [str(provider.dict())] and [str(store.dict())] *)
  provider_dict : Provider -> string;
  component_dict : Component -> string;
  (** [store.uuid] and [store.__class__] *)
  component_uuid : Component -> UUID;
  component_class : Component -> PyClass;
  (** [source_utils.resolve_class] *)
  resolve_class : PyClass -> string;
  (** the component resolver behind [mapping_utils]:
      [resolve(source_locator)] and [instantiate(factory, instance_id)] *)
  load_source_path_class : string -> PyClass;
  instantiate : PyClass -> UUID -> Component;
  (** [repr] of a [str] *)
  repr_str : string -> string;
  (** [BaseMetadataStore._METADATA_STORE_DIR_NAME] and
      [BaseArtifactStore._ARTIFACT_STORE_DIR_NAME] *)
  _METADATA_STORE_DIR_NAME : string;
  _ARTIFACT_STORE_DIR_NAME : string
}.

Section LocalService.
Context `{Env : Environment}.

(** ** The service object *)

Record LocalService : Type := mkLocalService {
  providers : gmap string Provider;
  metadata_store_map : gmap string UUIDSourceTuple;
  artifact_store_map : gmap string UUIDSourceTuple;
  orchestrator_map : gmap string UUIDSourceTuple
}.

(** The class-level defaults: four empty dictionaries. *)
Definition empty_service : LocalService :=
  mkLocalService ∅ ∅ ∅ ∅.

Definition _LOCAL_SERVICE_FILE_NAME : string := "zenservice.json".

(** ** Calls that leave the class *)

Inductive Call : Type :=
| Log (level : LogLevel) (msg : string)
| ComponentUpdate (c : Component)       (* [c.update()] *)
| ComponentDelete (c : Component)       (* [c.delete()] *)
| ResolveClass (cls : PyClass)          (* [source_utils.resolve_class(cls)] *)
| SelfUpdate                            (* [self.update()] *)
| SuperDelete.                          (* [super().delete()] *)

(** A call together with the service as it was when the call was made. *)
Definition Effect : Type := (LocalService * Call)%type.

(** ** The monad of methods *)

Definition M (A : Type) : Type :=
  LocalService -> Outcome A * LocalService * list Effect.

Definition ret {A} (a : A) : M A := fun self => (Return a, self, []).

Definition bind {A B} (m : M A) (k : A -> M B) : M B :=
  fun self =>
    match m self with
    | (Return a, self1, t1) =>
        match k a self1 with
        | (r, self2, t2) => (r, self2, t1 ++ t2)
        end
    | (Raise e, self1, t1) => (Raise e, self1, t1)
    end.

Definition raise {A} (e : PyException) : M A :=
  fun self => (Raise e, self, []).

Definition this : M LocalService := fun self => (Return self, self, []).

Definition assign (new : LocalService) : M unit :=
  fun _ => (Return tt, new, []).

Definition call (c : Call) : M unit :=
  fun self => (Return tt, self, [(self, c)]).

#[local] Notation "x <- m ;; k" := (bind m (fun x => k))
  (at level 100, m at next level, right associativity).
#[local] Notation "m >> k" := (bind m (fun _ => k))
  (at level 100, right associativity).

(** [for x in l: body(x)] *)
Fixpoint for_each {A} (l : list A) (body : A -> M unit) : M unit :=
  match l with
  | [] => ret tt
  | x :: l' => body x >> for_each l' body
  end.

(** The three projections of a finished method call. *)
Definition outcome {A} (r : Outcome A * LocalService * list Effect) : Outcome A :=
  r.1.1.
Definition final {A} (r : Outcome A * LocalService * list Effect) : LocalService :=
  r.1.2.
Definition trace {A} (r : Outcome A * LocalService * list Effect) : list Effect :=
  r.2.

(** ** Python dictionaries *)

(** [key in d] *)
Definition contains {V} (key : string) (d : gmap string V) : bool :=
  match d !! key with Some _ => true | None => false end.

(** [d[key]] *)
Definition getitem {V} (d : gmap string V) (key : string) : M V :=
  match d !! key with
  | Some v => ret v
  | None => raise (KeyError key)
  end.

(** [d.keys()] and [d.values()], in the order the map enumerates them. *)
Definition keys {V} (d : gmap string V) : list string := (map_to_list d).*1.
Definition values {V} (d : gmap string V) : list V := (map_to_list d).*2.

(** [str(d.keys())], as an f-string interpolates it. *)
Definition dict_keys_str (ks : list string) : string :=
  "dict_keys([" +:+ String.concat ", " (repr_str <$> ks) +:+ "])".

(** ** Attribute assignment on [self] *)

Definition set_providers (d : gmap string Provider) (self : LocalService) :=
  mkLocalService d (metadata_store_map self) (artifact_store_map self)
    (orchestrator_map self).
Definition set_metadata_store_map (d : gmap string UUIDSourceTuple)
    (self : LocalService) :=
  mkLocalService (providers self) d (artifact_store_map self)
    (orchestrator_map self).
Definition set_artifact_store_map (d : gmap string UUIDSourceTuple)
    (self : LocalService) :=
  mkLocalService (providers self) (metadata_store_map self) d
    (orchestrator_map self).

Definition set_orchestrator_map (d : gmap string UUIDSourceTuple)
    (self : LocalService) :=
  mkLocalService (providers self) (metadata_store_map self)
    (artifact_store_map self) d.

(** [del d[key]] on one of the attributes of [self]: [field] reads the
    dictionary and [store] writes it back. *)
Definition delitem {V} (field : LocalService -> gmap string V)
    (store : gmap string V -> LocalService -> LocalService)
    (key : string) : M unit :=
  self <- this ;;
  match field self !! key with
  | Some _ => assign (store (delete key (field self)) self)
  | None => raise (KeyError key)
  end.

(** [d[key] = v] on one of the attributes of [self]. *)
Definition setitem {V} (field : LocalService -> gmap string V)
    (store : gmap string V -> LocalService -> LocalService)
    (key : string) (v : V) : M unit :=
  self <- this ;;
  assign (store (<[key := v]> (field self)) self).

(** ** [mapping_utils] *)

(** Modelled from the spec: [mapping_utils.get_component_from_key] is not
    part of [local_service.py].  The component resolver is given the stored
    reference of [key]: it resolves the source locator to a class and
    instantiates that class with the instance identifier.

    In this embedding the resolver always yields its instance: it describes
    the service as long as the state of every store it refers to is on
    disk.  What happens once a store's state has been destroyed is the
    matter of the module [Stored] below, where the resolver consults the
    disk and can fail. *)
Definition component_of (t : UUIDSourceTuple) : Component :=
  instantiate (load_source_path_class (source t)) (uuid t).

Definition get_component_from_key (key : string)
    (mapping : gmap string UUIDSourceTuple) : M Component :=
  t <- getitem mapping key ;;
  ret (component_of t).

(** Modelled from the spec: [mapping_utils.get_components_from_store] is not
    part of [local_service.py].  Materialize-all yields exactly one
    instance per stored reference, under the same key; the directory name
    the caller passes plays no part in that contract. *)
Definition get_components_from_store (store_name : string)
    (mapping : gmap string UUIDSourceTuple) : gmap string Component :=
  component_of <$> mapping.

(** ** The methods of [LocalService] *)

Definition get_serialization_file_name : string := _LOCAL_SERVICE_FILE_NAME.

Definition metadata_stores (self : LocalService) : gmap string Component :=
  get_components_from_store _METADATA_STORE_DIR_NAME (metadata_store_map self).

Definition artifact_stores (self : LocalService) : gmap string Component :=
  get_components_from_store _ARTIFACT_STORE_DIR_NAME (artifact_store_map self).

Definition orchestrators (self : LocalService) : gmap string string := ∅.

Definition get_provider (key : string) : M Provider :=
  call (Log DEBUG ("Fetching provider with key " +:+ key)) >>
  self <- this ;;
  if negb (contains key (providers self)) then
    raise (DoesNotExistException
             ("Provider of key `" +:+ key +:+ "` does not exist. "
              +:+ "Available keys: " +:+ dict_keys_str (keys (providers self))))
  else getitem (providers self) key.

Definition register_provider (key : string) (provider : Provider) : M unit :=
  call (Log INFO ("Registering provider with key " +:+ key +:+ ", details: "
                  +:+ provider_dict provider)) >>
  self <- this ;;
  if contains key (providers self) then
    raise (AlreadyExistsException ("Provider `" +:+ key +:+ "` already exists!"))
  else
    setitem providers set_providers key provider >>
    call SelfUpdate.

Definition delete_provider (key : string) : M unit :=
  _ <- get_provider key ;;
  delitem providers set_providers key >>
  call SelfUpdate >>
  call (Log INFO ("Deleted provider with key: " +:+ key +:+ ".")).

Definition get_artifact_store (key : string) : M Component :=
  call (Log DEBUG ("Fetching artifact_store with key " +:+ key)) >>
  self <- this ;;
  if negb (contains key (artifact_store_map self)) then
    raise (DoesNotExistException
             ("Provider of key `" +:+ key +:+ "` does not exist. "
              +:+ "Available keys: "
              +:+ dict_keys_str (keys (artifact_store_map self))))
  else get_component_from_key key (artifact_store_map self).

Definition register_artifact_store (key : string) (artifact_store : Component)
    : M unit :=
  call (Log INFO ("Registering provider with key " +:+ key +:+ ", details: "
                  +:+ component_dict artifact_store)) >>
  self <- this ;;
  if contains key (artifact_store_map self) then
    raise (AlreadyExistsException
             ("Artifact Store `" +:+ key +:+ "` already exists!"))
  else
    call (ComponentUpdate artifact_store) >>
    call (ResolveClass (component_class artifact_store)) >>
    let source := resolve_class (component_class artifact_store) in
    setitem artifact_store_map set_artifact_store_map key
      (mkUUIDSourceTuple (component_uuid artifact_store) source) >>
    call SelfUpdate.

Definition delete_artifact_store (key : string) : M unit :=
  s <- get_artifact_store key ;;
  call (ComponentDelete s) >>
  delitem artifact_store_map set_artifact_store_map key >>
  call SelfUpdate >>
  call (Log INFO ("Deleted artifact_store with key: " +:+ key +:+ ".")).

Definition get_metadata_store (key : string) : M Component :=
  call (Log DEBUG ("Fetching metadata_store with key " +:+ key)) >>
  self <- this ;;
  if negb (contains key (metadata_store_map self)) then
    raise (DoesNotExistException
             ("Provider of key `" +:+ key +:+ "` does not exist. "
              +:+ "Available keys: "
              +:+ dict_keys_str (keys (metadata_store_map self))))
  else get_component_from_key key (metadata_store_map self).

Definition register_metadata_store (key : string) (metadata_store : Component)
    : M unit :=
  call (Log INFO ("Registering provider with key " +:+ key +:+ ", details: "
                  +:+ component_dict metadata_store)) >>
  self <- this ;;
  if contains key (metadata_store_map self) then
    raise (AlreadyExistsException
             ("Artifact Store `" +:+ key +:+ "` already exists!"))
  else
    call (ComponentUpdate metadata_store) >>
    call (ResolveClass (component_class metadata_store)) >>
    let source := resolve_class (component_class metadata_store) in
    setitem metadata_store_map set_metadata_store_map key
      (mkUUIDSourceTuple (component_uuid metadata_store) source) >>
    call SelfUpdate.

Definition delete_metadata_store (key : string) : M unit :=
  s <- get_metadata_store key ;;
  call (ComponentDelete s) >>
  delitem metadata_store_map set_metadata_store_map key >>
  call SelfUpdate >>
  call (Log INFO ("Deleted metadata_store with key: " +:+ key +:+ ".")).

(** [LocalService.delete]: the whole service.  The loop over the
    orchestrators is commented out in the source. *)
Definition delete : M unit :=
  self <- this ;;
  for_each (values (metadata_stores self))
    (fun m => call (ComponentDelete m)) >>
  self <- this ;;
  for_each (values (artifact_stores self))
    (fun a => call (ComponentDelete a)) >>
  call SuperDelete.

End LocalService.

(** ** A small environment to run the methods in

    Providers are named by a string; a store is its class name and its
    instance identifier, and a class is resolved by its name. *)
Definition sample_environment : Environment := {|
  Provider := string;
  Component := string * UUID;
  PyClass := string;
  provider_dict := fun p => "{'name': '" +:+ p +:+ "'}";
  component_dict := fun c => "{'class': '" +:+ c.1 +:+ "'}";
  component_uuid := snd;
  component_class := fst;
  resolve_class := fun cls => "zenml.stores." +:+ cls;
  load_source_path_class := fun src => String.substring 13 (String.length src - 13) src;
  instantiate := fun cls u => (cls, u);
  repr_str := fun s => "'" +:+ s +:+ "'";
  _METADATA_STORE_DIR_NAME := "metadata_stores";
  _ARTIFACT_STORE_DIR_NAME := "artifact_stores"
|}.

(** A service of that environment that holds the key ["local"] in each of
    its three mappings. *)
Definition sample_service : @LocalService sample_environment :=
  @mkLocalService sample_environment
    {[ "local" := "aws" ]}
    {[ "local" := mkUUIDSourceTuple 1%N "zenml.stores.SqliteMetadataStore" ]}
    {[ "local" := mkUUIDSourceTuple 2%N "zenml.stores.LocalArtifactStore" ]}
    ∅.

(** ** What a caller can observe of a raised error *)

(** [part] occurs in [msg]. *)
Definition mentions (msg part : string) : Prop :=
  exists before after, msg = before +:+ part +:+ after.

(** The text every [get_*] method puts in its [DoesNotExistException]. *)
Definition does_not_exist_message `{Environment} (key : string)
    (available : list string) : string :=
  "Provider of key `" +:+ key +:+ "` does not exist. Available keys: "
  +:+ dict_keys_str available.

(** The record every [register_*] method logs before it checks the key. *)
Definition registering_message (key details : string) : string :=
  "Registering provider with key " +:+ key +:+ ", details: " +:+ details.

(** The reference [register_artifact_store] and [register_metadata_store]
    keep for a store: its instance identifier and the source locator of its
    class. *)
Definition reference_of `{Environment} (store : Component) : UUIDSourceTuple :=
  mkUUIDSourceTuple (component_uuid store)
    (resolve_class (component_class store)).

(** ** Callers

    A caller of the service issues the nine keyed methods one after the
    other.  A request names the method and its arguments. *)
Inductive Request `{Environment} : Type :=
| GetProvider (key : string)
| RegisterProvider (key : string) (provider : Provider)
| DeleteProvider (key : string)
| GetArtifactStore (key : string)
| RegisterArtifactStore (key : string) (artifact_store : Component)
| DeleteArtifactStore (key : string)
| GetMetadataStore (key : string)
| RegisterMetadataStore (key : string) (metadata_store : Component)
| DeleteMetadataStore (key : string).

(** A method call whose result the caller drops. *)
Definition ignore `{Environment} {A} (m : M A) : M unit :=
  fun self =>
    match m self with
    | (Return _, self1, t) => (Return tt, self1, t)
    | (Raise e, self1, t) => (Raise e, self1, t)
    end.

Definition perform `{Environment} (q : Request) : M unit :=
  match q with
  | GetProvider key => ignore (get_provider key)
  | RegisterProvider key provider => register_provider key provider
  | DeleteProvider key => delete_provider key
  | GetArtifactStore key => ignore (get_artifact_store key)
  | RegisterArtifactStore key store => register_artifact_store key store
  | DeleteArtifactStore key => delete_artifact_store key
  | GetMetadataStore key => ignore (get_metadata_store key)
  | RegisterMetadataStore key store => register_metadata_store key store
  | DeleteMetadataStore key => delete_metadata_store key
  end.

(** A caller that issues the requests in order and carries on when one of
    them raises: the service after the last request, and the calls made
    on the way. *)
Fixpoint session `{Environment} (qs : list Request) (self : LocalService)
    : LocalService * list Effect :=
  match qs with
  | [] => (self, [])
  | q :: qs' =>
      let r := perform q self in
      let rest := session qs' (final r) in
      (rest.1, trace r ++ rest.2)
  end.

(** The states of the service that were handed to [self.update()], in
    order. *)
Definition updates `{Environment} (t : list Effect) : list LocalService :=
  omap (fun e : Effect =>
          match e.2 with SelfUpdate => Some e.1 | _ => None end) t.

(** The exception class a request can raise: [get_*] and [delete_*] raise
    [DoesNotExistException], [register_*] raises [AlreadyExistsException]. *)
Definition raises_its_own `{Environment} (q : Request) (e : PyException)
    : Prop :=
  match q with
  | RegisterProvider _ _ | RegisterArtifactStore _ _
  | RegisterMetadataStore _ _ =>
      exists msg, e = AlreadyExistsException msg
  | _ => exists msg, e = DoesNotExistException msg
  end.

(** * The service and what is on disk

    A second embedding of the same methods, in which the state carries,
    besides the service object, the persisted state of the stores and the
    service's own record.  A store's [update()] writes its state, its
    [delete()] destroys it, and the component resolver can rebuild an
    instance only from a state that is on disk; otherwise it fails and the
    failure reaches the caller. *)
Module Stored.
Section Stored.
Context `{Env : Environment}.

Record World : Type := mkWorld {
  (** the service object *)
  service : LocalService;
  (** the instance identifiers of the stores whose state is on disk *)
  components : gset UUID;
  (** the service's own record, [zenservice.json]; [None] when there is none *)
  record : option LocalService
}.

Definition W (A : Type) : Type := World -> Outcome A * World * list Call.

Definition outcome {A} (r : Outcome A * World * list Call) : Outcome A := r.1.1.
Definition world {A} (r : Outcome A * World * list Call) : World := r.1.2.
Definition calls {A} (r : Outcome A * World * list Call) : list Call := r.2.

Definition ret {A} (a : A) : W A := fun w => (Return a, w, []).

Definition bind {A B} (m : W A) (k : A -> W B) : W B :=
  fun w =>
    match m w with
    | (Return a, w1, t1) =>
        match k a w1 with
        | (r, w2, t2) => (r, w2, t1 ++ t2)
        end
    | (Raise e, w1, t1) => (Raise e, w1, t1)
    end.

Definition raise {A} (e : PyException) : W A := fun w => (Raise e, w, []).

Definition this : W LocalService := fun w => (Return (service w), w, []).

Definition assign (new : LocalService) : W unit :=
  fun w => (Return tt, mkWorld new (components w) (record w), []).

Definition logger (level : LogLevel) (msg : string) : W unit :=
  fun w => (Return tt, w, [Log level msg]).

(** Modelled from the spec: [BaseComponent.update] is not part of
    [local_service.py].  A store's [update()] persists the store's own
    state, so that its on-disk form exists. *)
Definition component_update (c : Component) : W unit :=
  fun w =>
    (Return tt,
     mkWorld (service w) ({[component_uuid c]} ∪ components w) (record w),
     [ComponentUpdate c]).

(** Modelled from the spec: [BaseComponent.delete] is not part of
    [local_service.py].  A store's [delete()] destroys the store's own
    state. *)
Definition component_delete (c : Component) : W unit :=
  fun w =>
    (Return tt,
     mkWorld (service w) (components w ∖ {[component_uuid c]}) (record w),
     [ComponentDelete c]).

(** [source_utils.resolve_class(cls)] *)
Definition resolve (cls : PyClass) : W string :=
  fun w => (Return (resolve_class cls), w, [ResolveClass cls]).

(** Modelled from the spec: [self.update()] persists the whole service
    as it is at the call. *)
Definition self_update : W unit :=
  fun w =>
    (Return tt, mkWorld (service w) (components w) (Some (service w)),
     [SelfUpdate]).

(** Modelled from the spec: [super().delete()] removes the service's own
    persisted record. *)
Definition super_delete : W unit :=
  fun w => (Return tt, mkWorld (service w) (components w) None, [SuperDelete]).

#[local] Notation "x <- m ;; k" := (bind m (fun x => k))
  (at level 100, m at next level, right associativity).
#[local] Notation "m >> k" := (bind m (fun _ => k))
  (at level 100, right associativity).

Fixpoint for_each {A} (l : list A) (body : A -> W unit) : W unit :=
  match l with
  | [] => ret tt
  | x :: l' => body x >> for_each l' body
  end.

Definition getitem {V} (d : gmap string V) (key : string) : W V :=
  match d !! key with
  | Some v => ret v
  | None => raise (KeyError key)
  end.

Definition delitem {V} (field : LocalService -> gmap string V)
    (store : gmap string V -> LocalService -> LocalService)
    (key : string) : W unit :=
  self <- this ;;
  match field self !! key with
  | Some _ => assign (store (base.delete key (field self)) self)
  | None => raise (KeyError key)
  end.

Definition setitem {V} (field : LocalService -> gmap string V)
    (store : gmap string V -> LocalService -> LocalService)
    (key : string) (v : V) : W unit :=
  self <- this ;;
  assign (store (<[key := v]> (field self)) self).

(** Modelled from the spec: the component resolver rebuilds the instance of
    a stored reference from the persisted state of that instance; when the
    state is not on disk it fails. *)
Definition instance_of (t : UUIDSourceTuple) : W Component :=
  fun w =>
    if decide (uuid t ∈ components w)
    then (Return (component_of t), w, [])
    else (Raise (ComponentError (uuid t)), w, []).

(** Modelled from the spec: [mapping_utils.get_component_from_key]. *)
Definition get_component_from_key (key : string)
    (mapping : gmap string UUIDSourceTuple) : W Component :=
  t <- getitem mapping key ;;
  instance_of t.

Fixpoint instances_of (l : list (string * UUIDSourceTuple))
    : W (list (string * Component)) :=
  match l with
  | [] => ret []
  | (key, t) :: l' =>
      c <- instance_of t ;;
      cs <- instances_of l' ;;
      ret ((key, c) :: cs)
  end.

(** Modelled from the spec: [mapping_utils.get_components_from_store]
    asks the resolver for one instance per stored reference, under the
    same key. *)
Definition get_components_from_store (store_name : string)
    (mapping : gmap string UUIDSourceTuple) : W (gmap string Component) :=
  cs <- instances_of (map_to_list mapping) ;;
  ret (list_to_map cs).

Definition metadata_stores : W (gmap string Component) :=
  self <- this ;;
  get_components_from_store _METADATA_STORE_DIR_NAME (metadata_store_map self).

Definition artifact_stores : W (gmap string Component) :=
  self <- this ;;
  get_components_from_store _ARTIFACT_STORE_DIR_NAME (artifact_store_map self).

Definition get_provider (key : string) : W Provider :=
  logger DEBUG ("Fetching provider with key " +:+ key) >>
  self <- this ;;
  if negb (contains key (providers self)) then
    raise (DoesNotExistException
             ("Provider of key `" +:+ key +:+ "` does not exist. "
              +:+ "Available keys: " +:+ dict_keys_str (keys (providers self))))
  else getitem (providers self) key.

Definition register_provider (key : string) (provider : Provider) : W unit :=
  logger INFO ("Registering provider with key " +:+ key +:+ ", details: "
               +:+ provider_dict provider) >>
  self <- this ;;
  if contains key (providers self) then
    raise (AlreadyExistsException ("Provider `" +:+ key +:+ "` already exists!"))
  else
    setitem providers set_providers key provider >>
    self_update.

Definition delete_provider (key : string) : W unit :=
  _ <- get_provider key ;;
  delitem providers set_providers key >>
  self_update >>
  logger INFO ("Deleted provider with key: " +:+ key +:+ ".").

Definition get_artifact_store (key : string) : W Component :=
  logger DEBUG ("Fetching artifact_store with key " +:+ key) >>
  self <- this ;;
  if negb (contains key (artifact_store_map self)) then
    raise (DoesNotExistException
             ("Provider of key `" +:+ key +:+ "` does not exist. "
              +:+ "Available keys: "
              +:+ dict_keys_str (keys (artifact_store_map self))))
  else get_component_from_key key (artifact_store_map self).

Definition register_artifact_store (key : string) (artifact_store : Component)
    : W unit :=
  logger INFO ("Registering provider with key " +:+ key +:+ ", details: "
               +:+ component_dict artifact_store) >>
  self <- this ;;
  if contains key (artifact_store_map self) then
    raise (AlreadyExistsException
             ("Artifact Store `" +:+ key +:+ "` already exists!"))
  else
    component_update artifact_store >>
    source <- resolve (component_class artifact_store) ;;
    setitem artifact_store_map set_artifact_store_map key
      (mkUUIDSourceTuple (component_uuid artifact_store) source) >>
    self_update.

Definition delete_artifact_store (key : string) : W unit :=
  s <- get_artifact_store key ;;
  component_delete s >>
  delitem artifact_store_map set_artifact_store_map key >>
  self_update >>
  logger INFO ("Deleted artifact_store with key: " +:+ key +:+ ".").

Definition get_metadata_store (key : string) : W Component :=
  logger DEBUG ("Fetching metadata_store with key " +:+ key) >>
  self <- this ;;
  if negb (contains key (metadata_store_map self)) then
    raise (DoesNotExistException
             ("Provider of key `" +:+ key +:+ "` does not exist. "
              +:+ "Available keys: "
              +:+ dict_keys_str (keys (metadata_store_map self))))
  else get_component_from_key key (metadata_store_map self).

Definition register_metadata_store (key : string) (metadata_store : Component)
    : W unit :=
  logger INFO ("Registering provider with key " +:+ key +:+ ", details: "
               +:+ component_dict metadata_store) >>
  self <- this ;;
  if contains key (metadata_store_map self) then
    raise (AlreadyExistsException
             ("Artifact Store `" +:+ key +:+ "` already exists!"))
  else
    component_update metadata_store >>
    source <- resolve (component_class metadata_store) ;;
    setitem metadata_store_map set_metadata_store_map key
      (mkUUIDSourceTuple (component_uuid metadata_store) source) >>
    self_update.

Definition delete_metadata_store (key : string) : W unit :=
  s <- get_metadata_store key ;;
  component_delete s >>
  delitem metadata_store_map set_metadata_store_map key >>
  self_update >>
  logger INFO ("Deleted metadata_store with key: " +:+ key +:+ ".").

(** [LocalService.delete]: the whole service. *)
Definition delete : W unit :=
  ms <- metadata_stores ;;
  for_each (values ms) component_delete >>
  stores <- artifact_stores ;;
  for_each (values stores) component_delete >>
  super_delete.

(** A method call whose result the caller drops. *)
Definition ignore {A} (m : W A) : W unit :=
  fun w =>
    match m w with
    | (Return _, w1, t) => (Return tt, w1, t)
    | (Raise e, w1, t) => (Raise e, w1, t)
    end.

Definition perform (q : Request) : W unit :=
  match q with
  | GetProvider key => ignore (get_provider key)
  | RegisterProvider key provider => register_provider key provider
  | DeleteProvider key => delete_provider key
  | GetArtifactStore key => ignore (get_artifact_store key)
  | RegisterArtifactStore key store => register_artifact_store key store
  | DeleteArtifactStore key => delete_artifact_store key
  | GetMetadataStore key => ignore (get_metadata_store key)
  | RegisterMetadataStore key store => register_metadata_store key store
  | DeleteMetadataStore key => delete_metadata_store key
  end.

(** The world before anything was registered or written. *)
Definition empty_world : World := mkWorld empty_service ∅ None.

End Stored.
End Stored.

(** The component resolver gives the instance the identifier it was asked
    for ([class_(uuid=...)]). *)
Definition resolver_keeps_uuid `{Environment} : Prop :=
  forall cls u, component_uuid (instantiate cls u) = u.

(** The stored reference of [key], if any, can be resolved in [w]: the
    state of the instance it names is on disk. *)
Definition resolvable `{Environment}
    (mapping : gmap string UUIDSourceTuple) (key : string)
    (w : Stored.World) : Prop :=
  forall ref, mapping !! key = Some ref -> uuid ref ∈ Stored.components w.

(** The requests whose method resolves a stored reference need it to be
    resolvable. *)
Definition request_resolvable `{Environment} (q : Request) (w : Stored.World)
    : Prop :=
  match q with
  | GetArtifactStore key | DeleteArtifactStore key =>
      resolvable (artifact_store_map (Stored.service w)) key w
  | GetMetadataStore key | DeleteMetadataStore key =>
      resolvable (metadata_store_map (Stored.service w)) key w
  | _ => True
  end.

(** [sample_service] with the state of its artifact store on disk, and
    the state of its metadata store missing. *)
Definition sample_world : @Stored.World sample_environment :=
  @Stored.mkWorld sample_environment sample_service {[ 2%N ]}
    (Some sample_service).

(** * Properties *)

Section Properties.
Context `{Env : Environment}.

Implicit Types (self : LocalService) (key : string).
Implicit Types (provider : Provider) (store : Component).
Implicit Types (ref : UUIDSourceTuple).

#[local] Ltac run :=
  unfold delete_provider, delete_artifact_store, delete_metadata_store,
    register_provider, register_artifact_store, register_metadata_store,
    get_provider, get_artifact_store, get_metadata_store,
    get_component_from_key, getitem, setitem, delitem, contains,
    bind, call, this, assign, ret, raise in *;
  cbn [negb fst snd app] in *.

#[local] Ltac project := unfold outcome, final, trace; cbn [fst snd].

(** *** Strings *)

Lemma append_assoc (a b c : string) : (a +:+ b) +:+ c = a +:+ (b +:+ c).
Proof.
  induction a as [|x a IH]; [done|].
  change (String x ((a +:+ b) +:+ c) = String x (a +:+ b +:+ c)).
  by rewrite IH.
Qed.

Lemma append_empty_r (a : string) : a +:+ "" = a.
Proof.
  induction a as [|x a IH]; [done|].
  change (String x (a +:+ "") = String x a). by rewrite IH.
Qed.

Lemma mentions_refl (a : string) : mentions a a.
Proof. exists "", "". by rewrite append_empty_r. Qed.

Lemma mentions_trans (a b c : string) :
  mentions a b -> mentions b c -> mentions a c.
Proof.
  intros (p1 & s1 & ->) (p2 & s2 & ->).
  exists (p1 +:+ p2), (s2 +:+ s1). by rewrite !append_assoc.
Qed.

Lemma mentions_prefix (a b c : string) : mentions b c -> mentions (a +:+ b) c.
Proof.
  intros H. apply (mentions_trans _ b); [|done].
  exists a, "". by rewrite append_empty_r.
Qed.

Lemma mentions_suffix (a b c : string) : mentions a c -> mentions (a +:+ b) c.
Proof.
  intros H. apply (mentions_trans _ a); [|done]. by exists "", b.
Qed.

(** Every element of a joined list occurs in the joined string. *)
Lemma mentions_concat (sep x : string) (l : list string) :
  x ∈ l -> mentions (String.concat sep l) x.
Proof.
  induction l as [|y [|z l] IH]; intros Hin.
  - by apply elem_of_nil in Hin.
  - apply list_elem_of_singleton in Hin as ->. apply mentions_refl.
  - change (String.concat sep (y :: z :: l))
      with (y +:+ sep +:+ String.concat sep (z :: l)).
    apply elem_of_cons in Hin as [->|Hin].
    + apply mentions_suffix, mentions_refl.
    + by apply mentions_prefix, mentions_prefix, IH.
Qed.

(** The rendering of [d.keys()] shows the [repr] of every key. *)
Lemma dict_keys_str_mentions (k : string) (ks : list string) :
  k ∈ ks -> mentions (dict_keys_str ks) (repr_str k).
Proof.
  intros Hin. unfold dict_keys_str.
  apply mentions_prefix, mentions_suffix, mentions_concat.
  by apply list_elem_of_fmap_2.
Qed.

Lemma does_not_exist_message_mentions key (available : list string) :
  mentions (does_not_exist_message key available) key /\
  mentions (does_not_exist_message key available) (dict_keys_str available).
Proof.
  split.
  - exists "Provider of key `",
      ("` does not exist. Available keys: " +:+ dict_keys_str available).
    reflexivity.
  - exists ("Provider of key `" +:+ key
            +:+ "` does not exist. Available keys: "), "".
    unfold does_not_exist_message.
    by rewrite !append_assoc, append_empty_r.
Qed.

(** *** Dictionaries *)

Lemma contains_true {V} key (d : gmap string V) :
  contains key d = true <-> is_Some (d !! key).
Proof.
  unfold contains. rewrite <- not_eq_None_Some.
  destruct (d !! key); split; congruence.
Qed.

Lemma elem_of_keys {V} key (d : gmap string V) :
  key ∈ keys d <-> contains key d = true.
Proof.
  rewrite contains_true. unfold keys. rewrite list_elem_of_fmap. split.
  - intros [[k v] [-> Hin]]. apply elem_of_map_to_list in Hin. by eexists.
  - intros [v Hv]. exists (key, v). split; [done|].
    by apply elem_of_map_to_list.
Qed.

(** *** The equations of the [get_*] methods *)

Lemma get_provider_present self key provider :
  providers self !! key = Some provider ->
  get_provider key self =
    (Return provider, self,
     [(self, Log DEBUG ("Fetching provider with key " +:+ key))]).
Proof. intros H. run. by rewrite H. Qed.

Lemma get_provider_absent self key :
  providers self !! key = None ->
  get_provider key self =
    (Raise (DoesNotExistException
              (does_not_exist_message key (keys (providers self)))),
     self, [(self, Log DEBUG ("Fetching provider with key " +:+ key))]).
Proof. intros H. run. by rewrite H. Qed.

Lemma get_artifact_store_present self key ref :
  artifact_store_map self !! key = Some ref ->
  get_artifact_store key self =
    (Return (component_of ref), self,
     [(self, Log DEBUG ("Fetching artifact_store with key " +:+ key))]).
Proof. intros H. run. by rewrite H. Qed.

Lemma get_artifact_store_absent self key :
  artifact_store_map self !! key = None ->
  get_artifact_store key self =
    (Raise (DoesNotExistException
              (does_not_exist_message key (keys (artifact_store_map self)))),
     self, [(self, Log DEBUG ("Fetching artifact_store with key " +:+ key))]).
Proof. intros H. run. by rewrite H. Qed.

Lemma get_metadata_store_present self key ref :
  metadata_store_map self !! key = Some ref ->
  get_metadata_store key self =
    (Return (component_of ref), self,
     [(self, Log DEBUG ("Fetching metadata_store with key " +:+ key))]).
Proof. intros H. run. by rewrite H. Qed.

Lemma get_metadata_store_absent self key :
  metadata_store_map self !! key = None ->
  get_metadata_store key self =
    (Raise (DoesNotExistException
              (does_not_exist_message key (keys (metadata_store_map self)))),
     self, [(self, Log DEBUG ("Fetching metadata_store with key " +:+ key))]).
Proof. intros H. run. by rewrite H. Qed.

(** *** The equations of the [register_*] methods *)

Lemma register_provider_present self key provider :
  is_Some (providers self !! key) ->
  register_provider key provider self =
    (Raise (AlreadyExistsException ("Provider `" +:+ key +:+ "` already exists!")),
     self,
     [(self, Log INFO (registering_message key (provider_dict provider)))]).
Proof. intros [p0 H]. run. by rewrite H. Qed.

Lemma register_provider_fresh self key provider :
  providers self !! key = None ->
  let self' := set_providers (<[key := provider]> (providers self)) self in
  register_provider key provider self =
    (Return tt, self',
     [(self, Log INFO (registering_message key (provider_dict provider)));
      (self', SelfUpdate)]).
Proof. intros H. run. by rewrite H. Qed.

Lemma register_artifact_store_present self key store :
  is_Some (artifact_store_map self !! key) ->
  register_artifact_store key store self =
    (Raise (AlreadyExistsException
              ("Artifact Store `" +:+ key +:+ "` already exists!")),
     self,
     [(self, Log INFO (registering_message key (component_dict store)))]).
Proof. intros [p0 H]. run. by rewrite H. Qed.

Lemma register_artifact_store_fresh self key store :
  artifact_store_map self !! key = None ->
  let self' :=
    set_artifact_store_map
      (<[key := reference_of store]> (artifact_store_map self)) self in
  register_artifact_store key store self =
    (Return tt, self',
     [(self, Log INFO (registering_message key (component_dict store)));
      (self, ComponentUpdate store);
      (self, ResolveClass (component_class store));
      (self', SelfUpdate)]).
Proof. intros H. run. by rewrite H. Qed.

Lemma register_metadata_store_present self key store :
  is_Some (metadata_store_map self !! key) ->
  register_metadata_store key store self =
    (Raise (AlreadyExistsException
              ("Artifact Store `" +:+ key +:+ "` already exists!")),
     self,
     [(self, Log INFO (registering_message key (component_dict store)))]).
Proof. intros [p0 H]. run. by rewrite H. Qed.

Lemma register_metadata_store_fresh self key store :
  metadata_store_map self !! key = None ->
  let self' :=
    set_metadata_store_map
      (<[key := reference_of store]> (metadata_store_map self)) self in
  register_metadata_store key store self =
    (Return tt, self',
     [(self, Log INFO (registering_message key (component_dict store)));
      (self, ComponentUpdate store);
      (self, ResolveClass (component_class store));
      (self', SelfUpdate)]).
Proof. intros H. run. by rewrite H. Qed.

(** *** The equations of the [delete_*] methods *)

Lemma delete_provider_present self key provider :
  providers self !! key = Some provider ->
  let self' := set_providers (base.delete key (providers self)) self in
  delete_provider key self =
    (Return tt, self',
     [(self, Log DEBUG ("Fetching provider with key " +:+ key));
      (self', SelfUpdate);
      (self', Log INFO ("Deleted provider with key: " +:+ key +:+ "."))]).
Proof. intros H. run. rewrite H; cbn. by rewrite H. Qed.

Lemma delete_provider_absent self key :
  providers self !! key = None ->
  delete_provider key self =
    (Raise (DoesNotExistException
              (does_not_exist_message key (keys (providers self)))),
     self, [(self, Log DEBUG ("Fetching provider with key " +:+ key))]).
Proof. intros H. run. by rewrite H. Qed.

Lemma delete_artifact_store_present self key ref :
  artifact_store_map self !! key = Some ref ->
  let self' :=
    set_artifact_store_map (base.delete key (artifact_store_map self)) self in
  delete_artifact_store key self =
    (Return tt, self',
     [(self, Log DEBUG ("Fetching artifact_store with key " +:+ key));
      (self, ComponentDelete (component_of ref));
      (self', SelfUpdate);
      (self', Log INFO ("Deleted artifact_store with key: " +:+ key +:+ "."))]).
Proof. intros H. run. rewrite H; cbn. by rewrite H. Qed.

Lemma delete_artifact_store_absent self key :
  artifact_store_map self !! key = None ->
  delete_artifact_store key self =
    (Raise (DoesNotExistException
              (does_not_exist_message key (keys (artifact_store_map self)))),
     self, [(self, Log DEBUG ("Fetching artifact_store with key " +:+ key))]).
Proof. intros H. run. by rewrite H. Qed.

Lemma delete_metadata_store_present self key ref :
  metadata_store_map self !! key = Some ref ->
  let self' :=
    set_metadata_store_map (base.delete key (metadata_store_map self)) self in
  delete_metadata_store key self =
    (Return tt, self',
     [(self, Log DEBUG ("Fetching metadata_store with key " +:+ key));
      (self, ComponentDelete (component_of ref));
      (self', SelfUpdate);
      (self', Log INFO ("Deleted metadata_store with key: " +:+ key +:+ "."))]).
Proof. intros H. run. rewrite H; cbn. by rewrite H. Qed.

Lemma delete_metadata_store_absent self key :
  metadata_store_map self !! key = None ->
  delete_metadata_store key self =
    (Raise (DoesNotExistException
              (does_not_exist_message key (keys (metadata_store_map self)))),
     self, [(self, Log DEBUG ("Fetching metadata_store with key " +:+ key))]).
Proof. intros H. run. by rewrite H. Qed.

(** *** Lookups after an assignment *)

Lemma providers_set_providers d self : providers (set_providers d self) = d.
Proof. done. Qed.
Lemma artifact_store_map_set d self :
  artifact_store_map (set_artifact_store_map d self) = d.
Proof. done. Qed.
Lemma metadata_store_map_set d self :
  metadata_store_map (set_metadata_store_map d self) = d.
Proof. done. Qed.

(** ** Registering a key twice *)

(** C1: registering a key that its mapping already holds raises
    [AlreadyExistsException] and changes nothing: the service is the same
    object state as before, the only call made is the log record that
    precedes the check (no [update()] of the component or of the
    service), and [get] on the key still yields what was registered first.
    This holds for providers, artifact stores and metadata stores. *)
Theorem register_registered_key_raises self key :
  (forall provider0 provider,
     providers self !! key = Some provider0 ->
     let r := register_provider key provider self in
     (exists msg, outcome r = Raise (AlreadyExistsException msg)) /\
     final r = self /\
     trace r = [(self, Log INFO (registering_message key (provider_dict provider)))] /\
     outcome (get_provider key (final r)) = Return provider0) /\
  (forall ref0 store,
     artifact_store_map self !! key = Some ref0 ->
     let r := register_artifact_store key store self in
     (exists msg, outcome r = Raise (AlreadyExistsException msg)) /\
     final r = self /\
     trace r = [(self, Log INFO (registering_message key (component_dict store)))] /\
     outcome (get_artifact_store key (final r)) = Return (component_of ref0)) /\
  (forall ref0 store,
     metadata_store_map self !! key = Some ref0 ->
     let r := register_metadata_store key store self in
     (exists msg, outcome r = Raise (AlreadyExistsException msg)) /\
     final r = self /\
     trace r = [(self, Log INFO (registering_message key (component_dict store)))] /\
     outcome (get_metadata_store key (final r)) = Return (component_of ref0)).
Proof.
  split; [|split]; intros x0 x H; cbv zeta.
  - rewrite register_provider_present by eauto.
    repeat split; eauto. project. by rewrite (get_provider_present _ _ _ H).
  - rewrite register_artifact_store_present by eauto.
    repeat split; eauto. project. by rewrite (get_artifact_store_present _ _ _ H).
  - rewrite register_metadata_store_present by eauto.
    repeat split; eauto. project. by rewrite (get_metadata_store_present _ _ _ H).
Qed.

(** ** Asking for a key that is not there *)

(** C2: when a key is absent from a mapping, the [get_*] method and the
    [delete_*] method of that mapping both raise [DoesNotExistException]
    (no value is returned and the service is left as it was); the message
    contains the key that was asked for and the rendering of the mapping's
    current keys, in which every key the mapping holds appears (as its
    [repr]). *)
Theorem absent_key_raises_does_not_exist self key :
  (providers self !! key = None ->
   let msg := does_not_exist_message key (keys (providers self)) in
   outcome (get_provider key self) = Raise (DoesNotExistException msg) /\
   outcome (delete_provider key self) = Raise (DoesNotExistException msg) /\
   final (delete_provider key self) = self /\
   mentions msg key /\ mentions msg (dict_keys_str (keys (providers self))) /\
   (forall k, contains k (providers self) = true ->
              mentions msg (repr_str k))) /\
  (artifact_store_map self !! key = None ->
   let msg := does_not_exist_message key (keys (artifact_store_map self)) in
   outcome (get_artifact_store key self) = Raise (DoesNotExistException msg) /\
   outcome (delete_artifact_store key self) = Raise (DoesNotExistException msg) /\
   final (delete_artifact_store key self) = self /\
   mentions msg key /\
   mentions msg (dict_keys_str (keys (artifact_store_map self))) /\
   (forall k, contains k (artifact_store_map self) = true ->
              mentions msg (repr_str k))) /\
  (metadata_store_map self !! key = None ->
   let msg := does_not_exist_message key (keys (metadata_store_map self)) in
   outcome (get_metadata_store key self) = Raise (DoesNotExistException msg) /\
   outcome (delete_metadata_store key self) = Raise (DoesNotExistException msg) /\
   final (delete_metadata_store key self) = self /\
   mentions msg key /\
   mentions msg (dict_keys_str (keys (metadata_store_map self))) /\
   (forall k, contains k (metadata_store_map self) = true ->
              mentions msg (repr_str k))) /\
  (forall k, k ∈ keys (providers self) <-> contains k (providers self) = true) /\
  (forall k, k ∈ keys (artifact_store_map self)
             <-> contains k (artifact_store_map self) = true) /\
  (forall k, k ∈ keys (metadata_store_map self)
             <-> contains k (metadata_store_map self) = true).
Proof.
  assert (Hall : forall {V} (d : gmap string V) k,
            contains k d = true ->
            mentions (does_not_exist_message key (keys d)) (repr_str k)).
  { intros V d k Hk.
    apply (mentions_trans _ (dict_keys_str (keys d)));
      [apply does_not_exist_message_mentions|].
    by apply dict_keys_str_mentions, elem_of_keys. }
  split; [|split; [|split; [|split; [|split]]]];
    try (intros k; apply elem_of_keys); intros H; cbv zeta.
  - rewrite get_provider_absent, delete_provider_absent by done.
    repeat apply conj; try apply does_not_exist_message_mentions; try done.
    apply Hall.
  - rewrite get_artifact_store_absent, delete_artifact_store_absent by done.
    repeat apply conj; try apply does_not_exist_message_mentions; try done.
    apply Hall.
  - rewrite get_metadata_store_absent, delete_metadata_store_absent by done.
    repeat apply conj; try apply does_not_exist_message_mentions; try done.
    apply Hall.
Qed.

(** ** Registering a fresh key *)

(** C3: registering a key its mapping does not hold succeeds, and [get] on
    the key then returns the provider itself, or for a store the instance
    the resolver builds from the stored pair of the store's instance
    identifier and the source locator of its class. *)
Theorem register_fresh_key_then_get self key :
  (forall provider,
     providers self !! key = None ->
     let r := register_provider key provider self in
     outcome r = Return tt /\
     outcome (get_provider key (final r)) = Return provider) /\
  (forall store,
     artifact_store_map self !! key = None ->
     let r := register_artifact_store key store self in
     outcome r = Return tt /\
     artifact_store_map (final r) !! key = Some (reference_of store) /\
     outcome (get_artifact_store key (final r)) =
       Return (instantiate
                 (load_source_path_class (resolve_class (component_class store)))
                 (component_uuid store))) /\
  (forall store,
     metadata_store_map self !! key = None ->
     let r := register_metadata_store key store self in
     outcome r = Return tt /\
     metadata_store_map (final r) !! key = Some (reference_of store) /\
     outcome (get_metadata_store key (final r)) =
       Return (instantiate
                 (load_source_path_class (resolve_class (component_class store)))
                 (component_uuid store))).
Proof.
  split; [|split]; intros x H; cbv zeta.
  - rewrite register_provider_fresh by done. split; [done|]. project.
    by erewrite get_provider_present by apply lookup_insert_eq.
  - rewrite register_artifact_store_fresh by done.
    split; [done|]. split; [apply lookup_insert_eq|]. project.
    by erewrite get_artifact_store_present by apply lookup_insert_eq.
  - rewrite register_metadata_store_fresh by done.
    split; [done|]. split; [apply lookup_insert_eq|]. project.
    by erewrite get_metadata_store_present by apply lookup_insert_eq.
Qed.

(** ** Deleting a key twice *)

(** C4: after [delete_*] has succeeded on a key, calling it again on the
    same key raises [DoesNotExistException] (from the check made by
    [get_*]) and leaves the service as the first call left it. *)
Theorem delete_twice_raises self key :
  (outcome (delete_provider key self) = Return tt ->
   let self1 := final (delete_provider key self) in
   (exists msg,
      outcome (delete_provider key self1) = Raise (DoesNotExistException msg)) /\
   final (delete_provider key self1) = self1) /\
  (outcome (delete_artifact_store key self) = Return tt ->
   let self1 := final (delete_artifact_store key self) in
   (exists msg,
      outcome (delete_artifact_store key self1)
      = Raise (DoesNotExistException msg)) /\
   final (delete_artifact_store key self1) = self1) /\
  (outcome (delete_metadata_store key self) = Return tt ->
   let self1 := final (delete_metadata_store key self) in
   (exists msg,
      outcome (delete_metadata_store key self1)
      = Raise (DoesNotExistException msg)) /\
   final (delete_metadata_store key self1) = self1).
Proof.
  split; [|split]; cbv zeta.
  - destruct (providers self !! key) as [p|] eqn:H.
    + rewrite (delete_provider_present _ _ _ H). intros _. project.
      rewrite delete_provider_absent by apply lookup_delete_eq. eauto.
    + by rewrite delete_provider_absent.
  - destruct (artifact_store_map self !! key) as [p|] eqn:H.
    + rewrite (delete_artifact_store_present _ _ _ H). intros _. project.
      rewrite delete_artifact_store_absent by apply lookup_delete_eq. eauto.
    + by rewrite delete_artifact_store_absent.
  - destruct (metadata_store_map self !! key) as [p|] eqn:H.
    + rewrite (delete_metadata_store_present _ _ _ H). intros _. project.
      rewrite delete_metadata_store_absent by apply lookup_delete_eq. eauto.
    + by rewrite delete_metadata_store_absent.
Qed.

(** ** Deleting the whole service *)

Lemma for_each_call {A} (f : A -> Call) (l : list A) self :
  for_each l (fun x => call (f x)) self =
    (Return tt, self, (fun x => (self, f x)) <$> l).
Proof.
  induction l as [|x l IH]; [done|].
  cbn [for_each]. unfold bind, call in *. cbn beta iota. by rewrite IH.
Qed.

Lemma delete_equation self :
  delete self =
    (Return tt, self,
     ((fun m => (self, ComponentDelete m)) <$> values (metadata_stores self))
     ++ ((fun a => (self, ComponentDelete a)) <$> values (artifact_stores self))
     ++ [(self, SuperDelete)]).
Proof.
  unfold delete, bind, this. rewrite !for_each_call. done.
Qed.

Lemma elem_of_values_components (mapping : gmap string UUIDSourceTuple)
    (name : string) (c : Component) :
  c ∈ values (get_components_from_store name mapping) <->
  exists key ref, mapping !! key = Some ref /\ c = component_of ref.
Proof.
  unfold values, get_components_from_store.
  rewrite list_elem_of_fmap. split.
  - intros [[k c'] [-> Hin]]. apply elem_of_map_to_list in Hin.
    rewrite lookup_fmap in Hin.
    destruct (mapping !! k) as [ref|] eqn:Hk; [|done].
    exists k, ref. split; [done|]. by injection Hin as <-.
  - intros (key & ref & Hk & ->). exists (key, component_of ref).
    split; [done|]. apply elem_of_map_to_list.
    by rewrite lookup_fmap, Hk.
Qed.

(** C6: [delete] on the whole service first calls [delete()] on every
    materialized metadata store, then on every materialized artifact
    store, then deletes the service's own record; the stores it destroys
    are exactly the instances resolved from the stored references, and the
    calls do not depend on what the orchestrator mapping holds. *)
Theorem delete_cascades_in_order self :
  outcome (delete self) = Return tt /\
  (trace (delete self)).*2 =
    (ComponentDelete <$> values (metadata_stores self))
    ++ (ComponentDelete <$> values (artifact_stores self))
    ++ [SuperDelete] /\
  (forall c, c ∈ values (metadata_stores self) <->
     exists key ref, metadata_store_map self !! key = Some ref
                     /\ c = component_of ref) /\
  (forall c, c ∈ values (artifact_stores self) <->
     exists key ref, artifact_store_map self !! key = Some ref
                     /\ c = component_of ref) /\
  (forall d, (trace (delete (set_orchestrator_map d self))).*2
             = (trace (delete self)).*2).
Proof.
  assert (Hcalls : forall s, (trace (delete s)).*2 =
    (ComponentDelete <$> values (metadata_stores s))
    ++ (ComponentDelete <$> values (artifact_stores s)) ++ [SuperDelete]).
  { intros s. rewrite delete_equation. project.
    rewrite !fmap_app, <- !list_fmap_compose. done. }
  split; [by rewrite delete_equation|].
  split; [apply Hcalls|].
  split; [intros c; apply elem_of_values_components|].
  split; [intros c; apply elem_of_values_components|].
  intros d. by rewrite !Hcalls.
Qed.

(** ** The order of the side effects *)

(** C7: deleting a registered artifact or metadata store first calls the
    [delete()] of the resolved store, while the key is still in the
    mapping, then removes the key, then calls [self.update()] on the
    service without the key.  Deleting a registered provider removes the
    key and calls [self.update()]; no [delete()] of any component is
    called. *)
Theorem delete_registered_key_effects self key :
  (forall ref,
     artifact_store_map self !! key = Some ref ->
     let self' :=
       set_artifact_store_map (base.delete key (artifact_store_map self)) self in
     artifact_store_map self' !! key = None /\
     delete_artifact_store key self =
       (Return tt, self',
        [(self, Log DEBUG ("Fetching artifact_store with key " +:+ key));
         (self, ComponentDelete (component_of ref));
         (self', SelfUpdate);
         (self', Log INFO ("Deleted artifact_store with key: " +:+ key +:+ "."))])) /\
  (forall ref,
     metadata_store_map self !! key = Some ref ->
     let self' :=
       set_metadata_store_map (base.delete key (metadata_store_map self)) self in
     metadata_store_map self' !! key = None /\
     delete_metadata_store key self =
       (Return tt, self',
        [(self, Log DEBUG ("Fetching metadata_store with key " +:+ key));
         (self, ComponentDelete (component_of ref));
         (self', SelfUpdate);
         (self', Log INFO ("Deleted metadata_store with key: " +:+ key +:+ "."))])) /\
  (forall provider,
     providers self !! key = Some provider ->
     let self' := set_providers (base.delete key (providers self)) self in
     providers self' !! key = None /\
     delete_provider key self =
       (Return tt, self',
        [(self, Log DEBUG ("Fetching provider with key " +:+ key));
         (self', SelfUpdate);
         (self', Log INFO ("Deleted provider with key: " +:+ key +:+ "."))]) /\
     (forall s c, (s, ComponentDelete c) ∉ trace (delete_provider key self))).
Proof.
  split; [|split]; intros x H; cbv zeta.
  - split; [apply lookup_delete_eq|]. by apply delete_artifact_store_present.
  - split; [apply lookup_delete_eq|]. by apply delete_metadata_store_present.
  - split; [apply lookup_delete_eq|].
    rewrite (delete_provider_present _ _ _ H). split; [done|].
    intros s c Hin. project.
    repeat (apply elem_of_cons in Hin as [Hin|Hin]; [congruence|]).
    by apply elem_of_nil in Hin.
Qed.

(** C8: registering a store under a fresh key first calls the store's
    [update()], while the key is not yet in the mapping, then computes the
    source locator of the store's class, records the pair of instance
    identifier and source locator under the key (the mapping then holds that
    pair for the key), and last calls
    [self.update()] on the service that holds the new entry.  Registering a
    provider under a fresh key stores the provider itself and last calls
    [self.update()]. *)
Theorem register_fresh_key_effects self key :
  (forall store,
     artifact_store_map self !! key = None ->
     let self' :=
       set_artifact_store_map
         (<[key := mkUUIDSourceTuple (component_uuid store)
                     (resolve_class (component_class store))]>
            (artifact_store_map self)) self in
     artifact_store_map self' !! key
       = Some (mkUUIDSourceTuple (component_uuid store)
                 (resolve_class (component_class store))) /\
     register_artifact_store key store self =
       (Return tt, self',
        [(self, Log INFO (registering_message key (component_dict store)));
         (self, ComponentUpdate store);
         (self, ResolveClass (component_class store));
         (self', SelfUpdate)])) /\
  (forall store,
     metadata_store_map self !! key = None ->
     let self' :=
       set_metadata_store_map
         (<[key := mkUUIDSourceTuple (component_uuid store)
                     (resolve_class (component_class store))]>
            (metadata_store_map self)) self in
     metadata_store_map self' !! key
       = Some (mkUUIDSourceTuple (component_uuid store)
                 (resolve_class (component_class store))) /\
     register_metadata_store key store self =
       (Return tt, self',
        [(self, Log INFO (registering_message key (component_dict store)));
         (self, ComponentUpdate store);
         (self, ResolveClass (component_class store));
         (self', SelfUpdate)])) /\
  (forall provider,
     providers self !! key = None ->
     let self' := set_providers (<[key := provider]> (providers self)) self in
     providers self' !! key = Some provider /\
     register_provider key provider self =
       (Return tt, self',
        [(self, Log INFO (registering_message key (provider_dict provider)));
         (self', SelfUpdate)])).
Proof.
  split; [|split]; intros x H; cbv zeta.
  - split; [apply lookup_insert_eq|]. by apply register_artifact_store_fresh.
  - split; [apply lookup_insert_eq|]. by apply register_metadata_store_fresh.
  - split; [apply lookup_insert_eq|]. by apply register_provider_fresh.
Qed.

(** ** The mappings do not interfere *)

(** C9: registering or deleting a key in one mapping leaves the other
    mappings as they were, whatever the call's outcome; and one key can be
    held by the three mappings at once: registered in each on the empty
    service, each registration succeeds and each [get] finds its own
    entry. *)
Theorem mappings_are_independent self key provider store :
  (let s' := final (register_provider key provider self) in
   artifact_store_map s' = artifact_store_map self /\
   metadata_store_map s' = metadata_store_map self /\
   orchestrator_map s' = orchestrator_map self) /\
  (let s' := final (delete_provider key self) in
   artifact_store_map s' = artifact_store_map self /\
   metadata_store_map s' = metadata_store_map self /\
   orchestrator_map s' = orchestrator_map self) /\
  (let s' := final (register_artifact_store key store self) in
   providers s' = providers self /\
   metadata_store_map s' = metadata_store_map self /\
   orchestrator_map s' = orchestrator_map self) /\
  (let s' := final (delete_artifact_store key self) in
   providers s' = providers self /\
   metadata_store_map s' = metadata_store_map self /\
   orchestrator_map s' = orchestrator_map self) /\
  (let s' := final (register_metadata_store key store self) in
   providers s' = providers self /\
   artifact_store_map s' = artifact_store_map self /\
   orchestrator_map s' = orchestrator_map self) /\
  (let s' := final (delete_metadata_store key self) in
   providers s' = providers self /\
   artifact_store_map s' = artifact_store_map self /\
   orchestrator_map s' = orchestrator_map self) /\
  (let r1 := register_provider key provider empty_service in
   let r2 := register_artifact_store key store (final r1) in
   let r3 := register_metadata_store key store (final r2) in
   outcome r1 = Return tt /\ outcome r2 = Return tt /\ outcome r3 = Return tt /\
   outcome (get_provider key (final r3)) = Return provider /\
   outcome (get_artifact_store key (final r3))
     = Return (component_of (reference_of store)) /\
   outcome (get_metadata_store key (final r3))
     = Return (component_of (reference_of store))).
Proof.
  cbv zeta. repeat apply conj.
  1-3: destruct (providers self !! key) eqn:H;
    [rewrite register_provider_present by eauto
    |rewrite register_provider_fresh by done]; done.
  1-3: destruct (providers self !! key) eqn:H;
    [rewrite (delete_provider_present _ _ _ H)
    |rewrite delete_provider_absent by done]; done.
  1-3: destruct (artifact_store_map self !! key) eqn:H;
    [rewrite register_artifact_store_present by eauto
    |rewrite register_artifact_store_fresh by done]; done.
  1-3: destruct (artifact_store_map self !! key) eqn:H;
    [rewrite (delete_artifact_store_present _ _ _ H)
    |rewrite delete_artifact_store_absent by done]; done.
  1-3: destruct (metadata_store_map self !! key) eqn:H;
    [rewrite register_metadata_store_present by eauto
    |rewrite register_metadata_store_fresh by done]; done.
  1-3: destruct (metadata_store_map self !! key) eqn:H;
    [rewrite (delete_metadata_store_present _ _ _ H)
    |rewrite delete_metadata_store_absent by done]; done.
  all: rewrite (register_provider_fresh empty_service key provider) by done;
    project; try done.
  all: rewrite register_artifact_store_fresh by done; project; try done.
  all: rewrite register_metadata_store_fresh by done; project; try done.
  - by erewrite get_provider_present by apply lookup_insert_eq.
  - by erewrite get_artifact_store_present by apply lookup_insert_eq.
  - by erewrite get_metadata_store_present by apply lookup_insert_eq.
Qed.

(** ** Reading does not write *)

(** C10: every [get_*] method, whether it returns or raises, leaves the
    service as it was and makes a single call, the debug log record: no
    [self.update()]. *)
Theorem get_is_a_read self key :
  (final (get_provider key self) = self /\
   trace (get_provider key self)
     = [(self, Log DEBUG ("Fetching provider with key " +:+ key))]) /\
  (final (get_artifact_store key self) = self /\
   trace (get_artifact_store key self)
     = [(self, Log DEBUG ("Fetching artifact_store with key " +:+ key))]) /\
  (final (get_metadata_store key self) = self /\
   trace (get_metadata_store key self)
     = [(self, Log DEBUG ("Fetching metadata_store with key " +:+ key))]) /\
  (forall s, (s, SelfUpdate) ∉
     trace (get_provider key self) ++ trace (get_artifact_store key self)
     ++ trace (get_metadata_store key self)).
Proof.
  assert (Hp : final (get_provider key self) = self /\
    trace (get_provider key self)
      = [(self, Log DEBUG ("Fetching provider with key " +:+ key))]).
  { destruct (providers self !! key) eqn:H;
      [rewrite (get_provider_present _ _ _ H)
      |rewrite get_provider_absent by done]; done. }
  assert (Ha : final (get_artifact_store key self) = self /\
    trace (get_artifact_store key self)
      = [(self, Log DEBUG ("Fetching artifact_store with key " +:+ key))]).
  { destruct (artifact_store_map self !! key) eqn:H;
      [rewrite (get_artifact_store_present _ _ _ H)
      |rewrite get_artifact_store_absent by done]; done. }
  assert (Hm : final (get_metadata_store key self) = self /\
    trace (get_metadata_store key self)
      = [(self, Log DEBUG ("Fetching metadata_store with key " +:+ key))]).
  { destruct (metadata_store_map self !! key) eqn:H;
      [rewrite (get_metadata_store_present _ _ _ H)
      |rewrite get_metadata_store_absent by done]; done. }
  repeat apply conj; try tauto.
  intros s Hin.
  rewrite (proj2 Hp), (proj2 Ha), (proj2 Hm) in Hin. cbn [app] in Hin.
  repeat (apply elem_of_cons in Hin as [Hin|Hin]; [congruence|]).
  by apply elem_of_nil in Hin.
Qed.

(** ** Every keyed method, at once *)

(** A request ends in one of two ways: it raises the exception of its
    method having made one log call and no change; or it returns, and then
    the orchestrator mapping is as before and the last state handed to
    [self.update()], if any, is the state it ends in. *)
Lemma perform_cases (q : Request) self :
  (exists e level msg,
     perform q self = (Raise e, self, [(self, Log level msg)])
     /\ raises_its_own q e) \/
  (exists self' t,
     perform q self = (Return tt, self', t)
     /\ orchestrator_map self' = orchestrator_map self
     /\ last (self :: updates t) = Some self').
Proof.
  destruct q as [k|k v|k|k|k v|k|k|k v|k]; cbn [perform raises_its_own].
  - unfold ignore. destruct (providers self !! k) eqn:H.
    + rewrite (get_provider_present _ _ _ H). right. by eexists _, _.
    + rewrite get_provider_absent by done. left. by eexists _, _, _; eauto.
  - destruct (providers self !! k) eqn:H.
    + rewrite register_provider_present by eauto. left.
      by eexists _, _, _; eauto.
    + rewrite register_provider_fresh by done. right. by eexists _, _.
  - destruct (providers self !! k) eqn:H.
    + rewrite (delete_provider_present _ _ _ H). right. by eexists _, _.
    + rewrite delete_provider_absent by done. left. by eexists _, _, _; eauto.
  - unfold ignore. destruct (artifact_store_map self !! k) eqn:H.
    + rewrite (get_artifact_store_present _ _ _ H). right. by eexists _, _.
    + rewrite get_artifact_store_absent by done. left.
      by eexists _, _, _; eauto.
  - destruct (artifact_store_map self !! k) eqn:H.
    + rewrite register_artifact_store_present by eauto. left.
      by eexists _, _, _; eauto.
    + rewrite register_artifact_store_fresh by done. right. by eexists _, _.
  - destruct (artifact_store_map self !! k) eqn:H.
    + rewrite (delete_artifact_store_present _ _ _ H). right. by eexists _, _.
    + rewrite delete_artifact_store_absent by done. left.
      by eexists _, _, _; eauto.
  - unfold ignore. destruct (metadata_store_map self !! k) eqn:H.
    + rewrite (get_metadata_store_present _ _ _ H). right. by eexists _, _.
    + rewrite get_metadata_store_absent by done. left.
      by eexists _, _, _; eauto.
  - destruct (metadata_store_map self !! k) eqn:H.
    + rewrite register_metadata_store_present by eauto. left.
      by eexists _, _, _; eauto.
    + rewrite register_metadata_store_fresh by done. right. by eexists _, _.
  - destruct (metadata_store_map self !! k) eqn:H.
    + rewrite (delete_metadata_store_present _ _ _ H). right. by eexists _, _.
    + rewrite delete_metadata_store_absent by done. left.
      by eexists _, _, _; eauto.
Qed.

(** ** Round trips *)

Lemma set_providers_id self : set_providers (providers self) self = self.
Proof. by destruct self. Qed.
Lemma set_artifact_store_map_id self :
  set_artifact_store_map (artifact_store_map self) self = self.
Proof. by destruct self. Qed.
Lemma set_metadata_store_map_id self :
  set_metadata_store_map (metadata_store_map self) self = self.
Proof. by destruct self. Qed.

(** X4: registering a fresh key and then deleting it gives back the
    service one started from, in each mapping; for a store the delete
    calls [delete()] on the instance resolved from the reference that the
    registration has just recorded. *)
Theorem register_then_delete_restores self key :
  (forall provider,
     providers self !! key = None ->
     let r1 := register_provider key provider self in
     let r2 := delete_provider key (final r1) in
     outcome r1 = Return tt /\ outcome r2 = Return tt /\ final r2 = self) /\
  (forall store,
     artifact_store_map self !! key = None ->
     let r1 := register_artifact_store key store self in
     let r2 := delete_artifact_store key (final r1) in
     outcome r1 = Return tt /\ outcome r2 = Return tt /\ final r2 = self /\
     (final r1, ComponentDelete (component_of (reference_of store)))
       ∈ trace r2) /\
  (forall store,
     metadata_store_map self !! key = None ->
     let r1 := register_metadata_store key store self in
     let r2 := delete_metadata_store key (final r1) in
     outcome r1 = Return tt /\ outcome r2 = Return tt /\ final r2 = self /\
     (final r1, ComponentDelete (component_of (reference_of store)))
       ∈ trace r2).
Proof.
  split; [|split]; intros v H; cbv zeta.
  - rewrite register_provider_fresh by done. project.
    erewrite delete_provider_present by apply lookup_insert_eq. project.
    split; [done|]. split; [done|].
    rewrite providers_set_providers, delete_insert_id by done.
    by destruct self.
  - rewrite register_artifact_store_fresh by done. project.
    erewrite delete_artifact_store_present by apply lookup_insert_eq. project.
    split; [done|]. split; [done|]. split.
    + rewrite artifact_store_map_set, delete_insert_id by done.
      by destruct self.
    + set_solver.
  - rewrite register_metadata_store_fresh by done. project.
    erewrite delete_metadata_store_present by apply lookup_insert_eq. project.
    split; [done|]. split; [done|]. split.
    + rewrite metadata_store_map_set, delete_insert_id by done.
      by destruct self.
    + set_solver.
Qed.

(** X5: a key that was deleted can be registered again, and [get] then
    finds the new entry; registering the provider that was there before
    (or a store with the same instance identifier and source locator)
    gives back the service one started from. *)
Theorem delete_then_register_reuses_key self key :
  (forall provider0 provider,
     providers self !! key = Some provider0 ->
     let r1 := delete_provider key self in
     let r2 := register_provider key provider (final r1) in
     outcome r1 = Return tt /\ outcome r2 = Return tt /\
     outcome (get_provider key (final r2)) = Return provider /\
     (provider = provider0 -> final r2 = self)) /\
  (forall ref0 store,
     artifact_store_map self !! key = Some ref0 ->
     let r1 := delete_artifact_store key self in
     let r2 := register_artifact_store key store (final r1) in
     outcome r1 = Return tt /\ outcome r2 = Return tt /\
     outcome (get_artifact_store key (final r2))
       = Return (component_of (reference_of store)) /\
     (reference_of store = ref0 -> final r2 = self)) /\
  (forall ref0 store,
     metadata_store_map self !! key = Some ref0 ->
     let r1 := delete_metadata_store key self in
     let r2 := register_metadata_store key store (final r1) in
     outcome r1 = Return tt /\ outcome r2 = Return tt /\
     outcome (get_metadata_store key (final r2))
       = Return (component_of (reference_of store)) /\
     (reference_of store = ref0 -> final r2 = self)).
Proof.
  split; [|split]; intros v0 v H; cbv zeta.
  - rewrite (delete_provider_present _ _ _ H). project.
    rewrite register_provider_fresh by apply lookup_delete_eq. project.
    split; [done|]. split; [done|]. split.
    + by erewrite get_provider_present by apply lookup_insert_eq.
    + intros ->. rewrite providers_set_providers, insert_delete_id by done.
      by destruct self.
  - rewrite (delete_artifact_store_present _ _ _ H). project.
    rewrite register_artifact_store_fresh by apply lookup_delete_eq. project.
    split; [done|]. split; [done|]. split.
    + by erewrite get_artifact_store_present by apply lookup_insert_eq.
    + intros ->. rewrite artifact_store_map_set, insert_delete_id by done.
      by destruct self.
  - rewrite (delete_metadata_store_present _ _ _ H). project.
    rewrite register_metadata_store_fresh by apply lookup_delete_eq. project.
    split; [done|]. split; [done|]. split.
    + by erewrite get_metadata_store_present by apply lookup_insert_eq.
    + intros ->. rewrite metadata_store_map_set, insert_delete_id by done.
      by destruct self.
Qed.

(** ** The state a method leaves *)

Lemma final_register_provider self key provider :
  final (register_provider key provider self) =
    if contains key (providers self) then self
    else set_providers (<[key := provider]> (providers self)) self.
Proof.
  unfold contains. destruct (providers self !! key) eqn:H.
  - by rewrite register_provider_present by eauto.
  - by rewrite register_provider_fresh.
Qed.

Lemma final_delete_provider self key :
  final (delete_provider key self) =
    if contains key (providers self)
    then set_providers (base.delete key (providers self)) self else self.
Proof.
  unfold contains. destruct (providers self !! key) eqn:H.
  - by rewrite (delete_provider_present _ _ _ H).
  - by rewrite delete_provider_absent.
Qed.

Lemma final_register_artifact_store self key store :
  final (register_artifact_store key store self) =
    if contains key (artifact_store_map self) then self
    else set_artifact_store_map
           (<[key := reference_of store]> (artifact_store_map self)) self.
Proof.
  unfold contains. destruct (artifact_store_map self !! key) eqn:H.
  - by rewrite register_artifact_store_present by eauto.
  - by rewrite register_artifact_store_fresh.
Qed.

Lemma final_delete_artifact_store self key :
  final (delete_artifact_store key self) =
    if contains key (artifact_store_map self)
    then set_artifact_store_map (base.delete key (artifact_store_map self)) self
    else self.
Proof.
  unfold contains. destruct (artifact_store_map self !! key) eqn:H.
  - by rewrite (delete_artifact_store_present _ _ _ H).
  - by rewrite delete_artifact_store_absent.
Qed.

Lemma final_register_metadata_store self key store :
  final (register_metadata_store key store self) =
    if contains key (metadata_store_map self) then self
    else set_metadata_store_map
           (<[key := reference_of store]> (metadata_store_map self)) self.
Proof.
  unfold contains. destruct (metadata_store_map self !! key) eqn:H.
  - by rewrite register_metadata_store_present by eauto.
  - by rewrite register_metadata_store_fresh.
Qed.

Lemma final_delete_metadata_store self key :
  final (delete_metadata_store key self) =
    if contains key (metadata_store_map self)
    then set_metadata_store_map (base.delete key (metadata_store_map self)) self
    else self.
Proof.
  unfold contains. destruct (metadata_store_map self !! key) eqn:H.
  - by rewrite (delete_metadata_store_present _ _ _ H).
  - by rewrite delete_metadata_store_absent.
Qed.

Lemma final_get_provider self key : final (get_provider key self) = self.
Proof.
  destruct (providers self !! key) eqn:H.
  - by rewrite (get_provider_present _ _ _ H).
  - by rewrite get_provider_absent.
Qed.

Lemma final_get_artifact_store self key :
  final (get_artifact_store key self) = self.
Proof.
  destruct (artifact_store_map self !! key) eqn:H.
  - by rewrite (get_artifact_store_present _ _ _ H).
  - by rewrite get_artifact_store_absent.
Qed.

Lemma final_get_metadata_store self key :
  final (get_metadata_store key self) = self.
Proof.
  destruct (metadata_store_map self !! key) eqn:H.
  - by rewrite (get_metadata_store_present _ _ _ H).
  - by rewrite get_metadata_store_absent.
Qed.

Lemma final_ignore {A} (m : M A) self : final (ignore m self) = final (m self).
Proof. unfold ignore. by destruct (m self) as [[[a|e] s] t]. Qed.

#[local] Ltac finals :=
  rewrite ?final_ignore, ?final_register_provider, ?final_delete_provider,
    ?final_register_artifact_store, ?final_delete_artifact_store,
    ?final_register_metadata_store, ?final_delete_metadata_store,
    ?final_get_provider, ?final_get_artifact_store,
    ?final_get_metadata_store.

(** X6: registering or deleting a key leaves every other key of the same
    mapping with the entry it had. *)
Theorem other_keys_keep_their_entry self key key' provider store :
  key' <> key ->
  providers (final (register_provider key provider self)) !! key'
    = providers self !! key' /\
  providers (final (delete_provider key self)) !! key'
    = providers self !! key' /\
  artifact_store_map (final (register_artifact_store key store self)) !! key'
    = artifact_store_map self !! key' /\
  artifact_store_map (final (delete_artifact_store key self)) !! key'
    = artifact_store_map self !! key' /\
  metadata_store_map (final (register_metadata_store key store self)) !! key'
    = metadata_store_map self !! key' /\
  metadata_store_map (final (delete_metadata_store key self)) !! key'
    = metadata_store_map self !! key'.
Proof.
  intros Hne. finals.
  repeat apply conj;
    match goal with |- context [contains ?k ?d] => destruct (contains k d) end;
    cbn; try done;
    by (rewrite lookup_insert_ne by done) || by (rewrite lookup_delete_ne by done).
Qed.

(** X7: registrations under two different keys can be made in either
    order: the service ends in the same state, whether or not each key
    was already taken. *)
Theorem registrations_commute self key1 key2 provider1 provider2 store1 store2 :
  key1 <> key2 ->
  final (register_provider key2 provider2
           (final (register_provider key1 provider1 self)))
  = final (register_provider key1 provider1
             (final (register_provider key2 provider2 self))) /\
  final (register_artifact_store key2 store2
           (final (register_artifact_store key1 store1 self)))
  = final (register_artifact_store key1 store1
             (final (register_artifact_store key2 store2 self))) /\
  final (register_metadata_store key2 store2
           (final (register_metadata_store key1 store1 self)))
  = final (register_metadata_store key1 store1
             (final (register_metadata_store key2 store2 self))).
Proof.
  intros Hne. finals. unfold contains.
  repeat apply conj.
  - destruct (providers self !! key1) eqn:H1,
      (providers self !! key2) eqn:H2; cbn;
      rewrite ?lookup_insert_ne, ?H1, ?H2 by done; try done.
    unfold set_providers; cbn. f_equal. by apply insert_insert_ne.
  - destruct (artifact_store_map self !! key1) eqn:H1,
      (artifact_store_map self !! key2) eqn:H2; cbn;
      rewrite ?lookup_insert_ne, ?H1, ?H2 by done; try done.
    unfold set_artifact_store_map; cbn. f_equal. by apply insert_insert_ne.
  - destruct (metadata_store_map self !! key1) eqn:H1,
      (metadata_store_map self !! key2) eqn:H2; cbn;
      rewrite ?lookup_insert_ne, ?H1, ?H2 by done; try done.
    unfold set_metadata_store_map; cbn. f_equal. by apply insert_insert_ne.
Qed.

(** ** Sessions *)

Lemma session_cons (q : Request) qs self :
  session (q :: qs) self =
    ((session qs (final (perform q self))).1,
     trace (perform q self) ++ (session qs (final (perform q self))).2).
Proof. done. Qed.

Lemma last_cons_app {A} (x y : A) (l1 l2 : list A) :
  last (x :: l1) = Some y -> last (x :: l1 ++ l2) = last (y :: l2).
Proof.
  intros H. change (x :: l1 ++ l2) with ((x :: l1) ++ l2).
  rewrite last_app, H, last_cons. done.
Qed.

(** X9: whatever requests a caller makes, and whichever of them raise,
    the service ends in the state that was handed to the last
    [self.update()] call (or in its initial state when no such call was
    made): no change of the mappings is left without an [update()]. *)
Theorem session_ends_in_last_update (qs : list Request) self :
  last (self :: updates (session qs self).2) = Some (session qs self).1.
Proof.
  revert self. induction qs as [|q qs IH]; intros self; [done|].
  rewrite session_cons. cbn [fst snd]. unfold updates. rewrite omap_app.
  fold (updates (trace (perform q self))).
  fold (updates (session qs (final (perform q self))).2).
  assert (Hq : last (self :: updates (trace (perform q self)))
               = Some (final (perform q self))).
  { destruct (perform_cases q self)
      as [(e & l & msg & -> & _)|(s' & t & -> & _ & Hl)]; done. }
  rewrite (last_cons_app _ _ _ _ Hq). apply IH.
Qed.

(** X10: no request touches the orchestrator mapping, and the
    [orchestrators] view is empty whatever that mapping holds. *)
Theorem sessions_ignore_orchestrators (qs : list Request) self :
  orchestrator_map (session qs self).1 = orchestrator_map self /\
  orchestrators (session qs self).1 = ∅ /\
  orchestrators self = ∅.
Proof.
  split; [|done].
  revert self. induction qs as [|q qs IH]; intros self; [done|].
  rewrite session_cons. cbn [fst]. rewrite IH.
  destruct (perform_cases q self)
    as [(e & l & msg & -> & _)|(s' & t & -> & Ho & _)]; done.
Qed.

(** X11: an entry stays as it was registered until [delete_*] is called
    on its key: through any requests that do not delete the key from its
    mapping (registrations under the same key included, which are
    refused), the mapping holds the same provider or reference for it. *)
Theorem entry_stays_until_deleted (qs : list Request) self key :
  (forall provider,
     providers self !! key = Some provider ->
     DeleteProvider key ∉ qs ->
     providers (session qs self).1 !! key = Some provider) /\
  (forall ref,
     artifact_store_map self !! key = Some ref ->
     DeleteArtifactStore key ∉ qs ->
     artifact_store_map (session qs self).1 !! key = Some ref) /\
  (forall ref,
     metadata_store_map self !! key = Some ref ->
     DeleteMetadataStore key ∉ qs ->
     metadata_store_map (session qs self).1 !! key = Some ref).
Proof.
  split; [|split]; intros v; revert self;
    (induction qs as [|q qs IH]; intros self H Hq; [done|]);
    apply not_elem_of_cons in Hq as [Hne Hq];
    rewrite session_cons; cbn [fst]; (apply IH; [|done]);
    destruct q as [k|k p|k|k|k p|k|k|k p|k]; cbn [perform]; finals;
    try done; unfold contains.
  - destruct (decide (k = key)) as [->|?]; [by rewrite H|].
    destruct (providers self !! k); [done|].
    cbn. by rewrite lookup_insert_ne.
  - assert (k <> key) by congruence.
    destruct (providers self !! k); [|done].
    cbn. by rewrite lookup_delete_ne.
  - by destruct (artifact_store_map self !! k).
  - by destruct (artifact_store_map self !! k).
  - by destruct (metadata_store_map self !! k).
  - by destruct (metadata_store_map self !! k).
  - by destruct (providers self !! k).
  - by destruct (providers self !! k).
  - destruct (decide (k = key)) as [->|?]; [by rewrite H|].
    destruct (artifact_store_map self !! k); [done|].
    cbn. by rewrite lookup_insert_ne.
  - assert (k <> key) by congruence.
    destruct (artifact_store_map self !! k); [|done].
    cbn. by rewrite lookup_delete_ne.
  - by destruct (metadata_store_map self !! k).
  - by destruct (metadata_store_map self !! k).
  - by destruct (providers self !! k).
  - by destruct (providers self !! k).
  - by destruct (artifact_store_map self !! k).
  - by destruct (artifact_store_map self !! k).
  - destruct (decide (k = key)) as [->|?]; [by rewrite H|].
    destruct (metadata_store_map self !! k); [done|].
    cbn. by rewrite lookup_insert_ne.
  - assert (k <> key) by congruence.
    destruct (metadata_store_map self !! k); [|done].
    cbn. by rewrite lookup_delete_ne.
Qed.

(** * Properties of the service with what is on disk *)

Implicit Types (w : Stored.World).

#[local] Ltac srun :=
  unfold Stored.delete_provider, Stored.delete_artifact_store,
    Stored.delete_metadata_store,
    Stored.register_provider, Stored.register_artifact_store,
    Stored.register_metadata_store,
    Stored.get_provider, Stored.get_artifact_store, Stored.get_metadata_store,
    Stored.get_component_from_key, Stored.instance_of,
    Stored.getitem, Stored.setitem, Stored.delitem,
    Stored.logger, Stored.component_update, Stored.component_delete,
    Stored.resolve, Stored.self_update, Stored.super_delete,
    Stored.bind, Stored.this, Stored.assign, Stored.ret, Stored.raise,
    contains in *;
  cbn [negb fst snd app Stored.service Stored.components Stored.record] in *.

#[local] Ltac sproject :=
  unfold Stored.outcome, Stored.world, Stored.calls;
  cbn [fst snd Stored.service Stored.components Stored.record].

Lemma World_eta w :
  Stored.mkWorld (Stored.service w) (Stored.components w) (Stored.record w) = w.
Proof. by destruct w. Qed.

(** *** The equations of the [get_*] methods *)

Lemma stored_get_provider_present w key provider :
  providers (Stored.service w) !! key = Some provider ->
  Stored.get_provider key w =
    (Return provider, w, [Log DEBUG ("Fetching provider with key " +:+ key)]).
Proof. intros H. srun. by rewrite H. Qed.

Lemma stored_get_provider_absent w key :
  providers (Stored.service w) !! key = None ->
  Stored.get_provider key w =
    (Raise (DoesNotExistException
              (does_not_exist_message key (keys (providers (Stored.service w))))),
     w, [Log DEBUG ("Fetching provider with key " +:+ key)]).
Proof. intros H. srun. by rewrite H. Qed.

Lemma stored_get_artifact_store_present w key ref :
  artifact_store_map (Stored.service w) !! key = Some ref ->
  uuid ref ∈ Stored.components w ->
  Stored.get_artifact_store key w =
    (Return (component_of ref), w,
     [Log DEBUG ("Fetching artifact_store with key " +:+ key)]).
Proof. intros H Hin. srun. rewrite H. cbn. by rewrite decide_True. Qed.

Lemma stored_get_artifact_store_destroyed w key ref :
  artifact_store_map (Stored.service w) !! key = Some ref ->
  uuid ref ∉ Stored.components w ->
  Stored.get_artifact_store key w =
    (Raise (ComponentError (uuid ref)), w,
     [Log DEBUG ("Fetching artifact_store with key " +:+ key)]).
Proof. intros H Hin. srun. rewrite H. cbn. by rewrite decide_False. Qed.

Lemma stored_get_artifact_store_absent w key :
  artifact_store_map (Stored.service w) !! key = None ->
  Stored.get_artifact_store key w =
    (Raise (DoesNotExistException
              (does_not_exist_message key
                 (keys (artifact_store_map (Stored.service w))))),
     w, [Log DEBUG ("Fetching artifact_store with key " +:+ key)]).
Proof. intros H. srun. by rewrite H. Qed.

Lemma stored_get_metadata_store_present w key ref :
  metadata_store_map (Stored.service w) !! key = Some ref ->
  uuid ref ∈ Stored.components w ->
  Stored.get_metadata_store key w =
    (Return (component_of ref), w,
     [Log DEBUG ("Fetching metadata_store with key " +:+ key)]).
Proof. intros H Hin. srun. rewrite H. cbn. by rewrite decide_True. Qed.

Lemma stored_get_metadata_store_destroyed w key ref :
  metadata_store_map (Stored.service w) !! key = Some ref ->
  uuid ref ∉ Stored.components w ->
  Stored.get_metadata_store key w =
    (Raise (ComponentError (uuid ref)), w,
     [Log DEBUG ("Fetching metadata_store with key " +:+ key)]).
Proof. intros H Hin. srun. rewrite H. cbn. by rewrite decide_False. Qed.

Lemma stored_get_metadata_store_absent w key :
  metadata_store_map (Stored.service w) !! key = None ->
  Stored.get_metadata_store key w =
    (Raise (DoesNotExistException
              (does_not_exist_message key
                 (keys (metadata_store_map (Stored.service w))))),
     w, [Log DEBUG ("Fetching metadata_store with key " +:+ key)]).
Proof. intros H. srun. by rewrite H. Qed.

(** *** The equations of the [register_*] methods *)

Lemma stored_register_provider_present w key provider :
  is_Some (providers (Stored.service w) !! key) ->
  Stored.register_provider key provider w =
    (Raise (AlreadyExistsException ("Provider `" +:+ key +:+ "` already exists!")),
     w, [Log INFO (registering_message key (provider_dict provider))]).
Proof. intros [p0 H]. srun. by rewrite H. Qed.

Lemma stored_register_provider_fresh w key provider :
  providers (Stored.service w) !! key = None ->
  let self' :=
    set_providers (<[key := provider]> (providers (Stored.service w)))
      (Stored.service w) in
  Stored.register_provider key provider w =
    (Return tt, Stored.mkWorld self' (Stored.components w) (Some self'),
     [Log INFO (registering_message key (provider_dict provider)); SelfUpdate]).
Proof. intros H. srun. by rewrite H. Qed.

Lemma stored_register_artifact_store_present w key store :
  is_Some (artifact_store_map (Stored.service w) !! key) ->
  Stored.register_artifact_store key store w =
    (Raise (AlreadyExistsException
              ("Artifact Store `" +:+ key +:+ "` already exists!")),
     w, [Log INFO (registering_message key (component_dict store))]).
Proof. intros [p0 H]. srun. by rewrite H. Qed.

Lemma stored_register_artifact_store_fresh w key store :
  artifact_store_map (Stored.service w) !! key = None ->
  let self' :=
    set_artifact_store_map
      (<[key := reference_of store]> (artifact_store_map (Stored.service w)))
      (Stored.service w) in
  Stored.register_artifact_store key store w =
    (Return tt,
     Stored.mkWorld self' ({[component_uuid store]} ∪ Stored.components w)
       (Some self'),
     [Log INFO (registering_message key (component_dict store));
      ComponentUpdate store;
      ResolveClass (component_class store);
      SelfUpdate]).
Proof. intros H. srun. by rewrite H. Qed.

Lemma stored_register_metadata_store_present w key store :
  is_Some (metadata_store_map (Stored.service w) !! key) ->
  Stored.register_metadata_store key store w =
    (Raise (AlreadyExistsException
              ("Artifact Store `" +:+ key +:+ "` already exists!")),
     w, [Log INFO (registering_message key (component_dict store))]).
Proof. intros [p0 H]. srun. by rewrite H. Qed.

Lemma stored_register_metadata_store_fresh w key store :
  metadata_store_map (Stored.service w) !! key = None ->
  let self' :=
    set_metadata_store_map
      (<[key := reference_of store]> (metadata_store_map (Stored.service w)))
      (Stored.service w) in
  Stored.register_metadata_store key store w =
    (Return tt,
     Stored.mkWorld self' ({[component_uuid store]} ∪ Stored.components w)
       (Some self'),
     [Log INFO (registering_message key (component_dict store));
      ComponentUpdate store;
      ResolveClass (component_class store);
      SelfUpdate]).
Proof. intros H. srun. by rewrite H. Qed.

(** *** The equations of the [delete_*] methods *)

Lemma stored_delete_provider_present w key provider :
  providers (Stored.service w) !! key = Some provider ->
  let self' :=
    set_providers (base.delete key (providers (Stored.service w)))
      (Stored.service w) in
  Stored.delete_provider key w =
    (Return tt, Stored.mkWorld self' (Stored.components w) (Some self'),
     [Log DEBUG ("Fetching provider with key " +:+ key);
      SelfUpdate;
      Log INFO ("Deleted provider with key: " +:+ key +:+ ".")]).
Proof. intros H. srun. rewrite H; cbn. by rewrite H. Qed.

Lemma stored_delete_provider_absent w key :
  providers (Stored.service w) !! key = None ->
  Stored.delete_provider key w =
    (Raise (DoesNotExistException
              (does_not_exist_message key (keys (providers (Stored.service w))))),
     w, [Log DEBUG ("Fetching provider with key " +:+ key)]).
Proof. intros H. srun. by rewrite H. Qed.

Lemma stored_delete_artifact_store_present w key ref :
  artifact_store_map (Stored.service w) !! key = Some ref ->
  uuid ref ∈ Stored.components w ->
  let self' :=
    set_artifact_store_map
      (base.delete key (artifact_store_map (Stored.service w)))
      (Stored.service w) in
  Stored.delete_artifact_store key w =
    (Return tt,
     Stored.mkWorld self'
       (Stored.components w ∖ {[component_uuid (component_of ref)]})
       (Some self'),
     [Log DEBUG ("Fetching artifact_store with key " +:+ key);
      ComponentDelete (component_of ref);
      SelfUpdate;
      Log INFO ("Deleted artifact_store with key: " +:+ key +:+ ".")]).
Proof.
  intros H Hin. unfold Stored.delete_artifact_store, Stored.bind at 1.
  rewrite (stored_get_artifact_store_present _ _ _ H Hin).
  srun. by rewrite H.
Qed.

Lemma stored_delete_artifact_store_destroyed w key ref :
  artifact_store_map (Stored.service w) !! key = Some ref ->
  uuid ref ∉ Stored.components w ->
  Stored.delete_artifact_store key w =
    (Raise (ComponentError (uuid ref)), w,
     [Log DEBUG ("Fetching artifact_store with key " +:+ key)]).
Proof.
  intros H Hin. unfold Stored.delete_artifact_store, Stored.bind at 1.
  by rewrite (stored_get_artifact_store_destroyed _ _ _ H Hin).
Qed.

Lemma stored_delete_artifact_store_absent w key :
  artifact_store_map (Stored.service w) !! key = None ->
  Stored.delete_artifact_store key w =
    (Raise (DoesNotExistException
              (does_not_exist_message key
                 (keys (artifact_store_map (Stored.service w))))),
     w, [Log DEBUG ("Fetching artifact_store with key " +:+ key)]).
Proof.
  intros H. unfold Stored.delete_artifact_store, Stored.bind at 1.
  by rewrite (stored_get_artifact_store_absent _ _ H).
Qed.

Lemma stored_delete_metadata_store_present w key ref :
  metadata_store_map (Stored.service w) !! key = Some ref ->
  uuid ref ∈ Stored.components w ->
  let self' :=
    set_metadata_store_map
      (base.delete key (metadata_store_map (Stored.service w)))
      (Stored.service w) in
  Stored.delete_metadata_store key w =
    (Return tt,
     Stored.mkWorld self'
       (Stored.components w ∖ {[component_uuid (component_of ref)]})
       (Some self'),
     [Log DEBUG ("Fetching metadata_store with key " +:+ key);
      ComponentDelete (component_of ref);
      SelfUpdate;
      Log INFO ("Deleted metadata_store with key: " +:+ key +:+ ".")]).
Proof.
  intros H Hin. unfold Stored.delete_metadata_store, Stored.bind at 1.
  rewrite (stored_get_metadata_store_present _ _ _ H Hin).
  srun. by rewrite H.
Qed.

Lemma stored_delete_metadata_store_destroyed w key ref :
  metadata_store_map (Stored.service w) !! key = Some ref ->
  uuid ref ∉ Stored.components w ->
  Stored.delete_metadata_store key w =
    (Raise (ComponentError (uuid ref)), w,
     [Log DEBUG ("Fetching metadata_store with key " +:+ key)]).
Proof.
  intros H Hin. unfold Stored.delete_metadata_store, Stored.bind at 1.
  by rewrite (stored_get_metadata_store_destroyed _ _ _ H Hin).
Qed.

Lemma stored_delete_metadata_store_absent w key :
  metadata_store_map (Stored.service w) !! key = None ->
  Stored.delete_metadata_store key w =
    (Raise (DoesNotExistException
              (does_not_exist_message key
                 (keys (metadata_store_map (Stored.service w))))),
     w, [Log DEBUG ("Fetching metadata_store with key " +:+ key)]).
Proof.
  intros H. unfold Stored.delete_metadata_store, Stored.bind at 1.
  by rewrite (stored_get_metadata_store_absent _ _ H).
Qed.

(** ** Deleting the whole service, with what is on disk *)

Lemma instances_of_stored (l : list (string * UUIDSourceTuple)) w :
  (forall key ref, (key, ref) ∈ l -> uuid ref ∈ Stored.components w) ->
  Stored.instances_of l w = (Return (prod_map id component_of <$> l), w, []).
Proof.
  induction l as [|[k t] l IH]; intros Hall; [done|].
  cbn [Stored.instances_of]. unfold Stored.bind at 1.
  unfold Stored.instance_of. rewrite decide_True by (apply (Hall k); left).
  unfold Stored.bind at 1. rewrite IH; [done|].
  intros key ref Hin. apply (Hall key). by right.
Qed.

Lemma stored_materialized_view (name : string)
    (mapping : gmap string UUIDSourceTuple) w :
  (forall key ref, mapping !! key = Some ref -> uuid ref ∈ Stored.components w) ->
  Stored.get_components_from_store name mapping w =
    (Return (get_components_from_store name mapping), w, []).
Proof.
  intros Hall. unfold Stored.get_components_from_store, Stored.bind.
  rewrite instances_of_stored.
  - unfold Stored.ret, get_components_from_store.
    by rewrite list_to_map_fmap, list_to_map_to_list.
  - intros key ref Hin. apply (Hall key). by apply elem_of_map_to_list.
Qed.

Lemma for_each_component_delete (l : list Component) w :
  Stored.for_each l Stored.component_delete w =
    (Return tt,
     Stored.mkWorld (Stored.service w)
       (Stored.components w ∖ list_to_set (component_uuid <$> l))
       (Stored.record w),
     ComponentDelete <$> l).
Proof.
  revert w. induction l as [|c l IH]; intros w.
  - cbn. unfold Stored.ret. do 2 f_equal. destruct w; cbn. f_equal.
    by rewrite difference_empty_L.
  - cbn [Stored.for_each]. unfold Stored.bind, Stored.component_delete at 1.
    rewrite IH. cbn. do 3 f_equal. by rewrite difference_difference_l_L.
Qed.

(** [delete] when every reference can be resolved at the moment it is
    materialized: the metadata stores before anything is destroyed, the
    artifact stores after the metadata stores were destroyed. *)
Lemma stored_delete_equation w :
  let self := Stored.service w in
  let gone_m : gset UUID :=
    list_to_set (component_uuid <$> values (metadata_stores self)) in
  let gone_a : gset UUID :=
    list_to_set (component_uuid <$> values (artifact_stores self)) in
  (forall key ref, metadata_store_map self !! key = Some ref ->
                   uuid ref ∈ Stored.components w) ->
  (forall key ref, artifact_store_map self !! key = Some ref ->
                   uuid ref ∈ Stored.components w ∖ gone_m) ->
  Stored.delete w =
    (Return tt,
     Stored.mkWorld self (Stored.components w ∖ gone_m ∖ gone_a) None,
     (ComponentDelete <$> values (metadata_stores self))
     ++ (ComponentDelete <$> values (artifact_stores self))
     ++ [SuperDelete]).
Proof.
  cbv zeta. intros Hm Ha.
  unfold Stored.delete, Stored.metadata_stores, Stored.artifact_stores.
  unfold Stored.bind at 1. unfold Stored.bind at 1. unfold Stored.this at 1.
  rewrite stored_materialized_view by done.
  unfold Stored.bind at 1. rewrite for_each_component_delete.
  unfold Stored.bind at 1. unfold Stored.bind at 1. unfold Stored.this at 1.
  cbn [Stored.service].
  rewrite stored_materialized_view by done.
  unfold Stored.bind at 1. rewrite for_each_component_delete.
  unfold Stored.super_delete. cbn. done.
Qed.

(** C5: on a registry with one registered metadata store ["m1"] and one
    registered artifact store ["a1"] (two stores with different instance
    identifiers), both entries can be retrieved before; [delete] then
    calls [delete()] on both resolved stores, so that the state of neither
    is on disk any more, and removes the service's own record; afterwards
    no [get_*] method of any of the three mappings returns for ["m1"] or for
    ["a1"]: each raises. *)
Theorem delete_leaves_nothing_retrievable (m a : Component) :
  resolver_keeps_uuid ->
  component_uuid m <> component_uuid a ->
  let r1 := Stored.register_metadata_store "m1" m Stored.empty_world in
  let r2 := Stored.register_artifact_store "a1" a (Stored.world r1) in
  let w := Stored.world r2 in
  let r := Stored.delete w in
  let w' := Stored.world r in
  (Stored.outcome r1 = Return tt /\ Stored.outcome r2 = Return tt /\
   component_uuid m ∈ Stored.components w /\
   component_uuid a ∈ Stored.components w /\
   Stored.record w = Some (Stored.service w) /\
   Stored.outcome (Stored.get_metadata_store "m1" w)
     = Return (component_of (reference_of m)) /\
   Stored.outcome (Stored.get_artifact_store "a1" w)
     = Return (component_of (reference_of a))) /\
  (Stored.outcome r = Return tt /\
   Stored.calls r =
     [ComponentDelete (component_of (reference_of m));
      ComponentDelete (component_of (reference_of a));
      SuperDelete] /\
   (component_uuid m ∉ Stored.components w') /\
   (component_uuid a ∉ Stored.components w') /\
   Stored.record w' = None) /\
  (forall key, key = "m1" \/ key = "a1" ->
     (exists e, Stored.outcome (Stored.get_provider key w') = Raise e) /\
     (exists e, Stored.outcome (Stored.get_artifact_store key w') = Raise e) /\
     (exists e, Stored.outcome (Stored.get_metadata_store key w') = Raise e)).
Proof.
  intros Hlaw Hne. cbv zeta.
  assert (Hum : component_uuid (component_of (reference_of m)) = component_uuid m)
    by apply Hlaw.
  assert (Hua : component_uuid (component_of (reference_of a)) = component_uuid a)
    by apply Hlaw.
  set (self1 := mkLocalService ∅ {[ "m1" := reference_of m ]} ∅ ∅).
  set (w1 := Stored.mkWorld self1 ({[component_uuid m]} ∪ ∅) (Some self1)).
  set (self := mkLocalService ∅ {[ "m1" := reference_of m ]}
                 {[ "a1" := reference_of a ]} ∅).
  set (w := Stored.mkWorld self
              ({[component_uuid a]} ∪ ({[component_uuid m]} ∪ ∅)) (Some self)).
  assert (H1 : Stored.register_metadata_store "m1" m Stored.empty_world =
    (Return tt, w1,
     [Log INFO (registering_message "m1" (component_dict m));
      ComponentUpdate m; ResolveClass (component_class m); SelfUpdate])).
  { rewrite stored_register_metadata_store_fresh by done.
    unfold Stored.empty_world, empty_service, set_metadata_store_map. cbn.
    by rewrite insert_empty. }
  rewrite H1. sproject.
  assert (H2 : Stored.register_artifact_store "a1" a w1 =
    (Return tt, w,
     [Log INFO (registering_message "a1" (component_dict a));
      ComponentUpdate a; ResolveClass (component_class a); SelfUpdate])).
  { rewrite stored_register_artifact_store_fresh by done.
    unfold w1, self1, set_artifact_store_map. cbn.
    by rewrite insert_empty. }
  rewrite H2. sproject.
  assert (Hvm : values (metadata_stores self) = [component_of (reference_of m)]).
  { unfold values, metadata_stores, get_components_from_store. cbn.
    by rewrite map_fmap_singleton, map_to_list_singleton. }
  assert (Hva : values (artifact_stores self) = [component_of (reference_of a)]).
  { unfold values, artifact_stores, get_components_from_store. cbn.
    by rewrite map_fmap_singleton, map_to_list_singleton. }
  assert (Hdel : Stored.delete w =
    (Return tt,
     Stored.mkWorld self
       ((({[component_uuid a]} ∪ ({[component_uuid m]} ∪ ∅))
          ∖ list_to_set [component_uuid m]) ∖ list_to_set [component_uuid a])
       None,
     [ComponentDelete (component_of (reference_of m));
      ComponentDelete (component_of (reference_of a)); SuperDelete])).
  { rewrite stored_delete_equation; cbn [Stored.service Stored.components w].
    - rewrite Hvm, Hva. cbn [fmap list_fmap]. by rewrite Hum, Hua.
    - intros key ref Hk. cbn in Hk.
      apply lookup_singleton_Some in Hk as [_ <-]. cbn. set_solver.
    - intros key ref Hk. cbn in Hk.
      apply lookup_singleton_Some in Hk as [_ <-].
      rewrite Hvm. cbn [fmap list_fmap]. rewrite Hum. cbn. set_solver. }
  split; [|split].
  - split; [done|]. split; [done|].
    split; [cbn; set_solver|]. split; [cbn; set_solver|]. split; [done|].
    split.
    + erewrite stored_get_metadata_store_present;
        [done|apply lookup_singleton_eq|cbn; set_solver].
    + erewrite stored_get_artifact_store_present;
        [done|apply lookup_singleton_eq|cbn; set_solver].
  - rewrite Hdel. sproject. split; [done|]. split; [done|].
    split; [set_solver|]. split; [set_solver|done].
  - rewrite Hdel. sproject. intros key [-> | ->].
    + split; [|split].
      * rewrite stored_get_provider_absent by done. by eexists.
      * rewrite stored_get_artifact_store_absent by done. by eexists.
      * erewrite stored_get_metadata_store_destroyed;
          [by eexists|apply lookup_singleton_eq|cbn; set_solver].
    + split; [|split].
      * rewrite stored_get_provider_absent by done. by eexists.
      * erewrite stored_get_artifact_store_destroyed;
          [by eexists|apply lookup_singleton_eq|cbn; set_solver].
      * rewrite stored_get_metadata_store_absent by done. by eexists.
Qed.

(** ** The two embeddings *)

(** X13: as long as the reference a method has to resolve names a store
    whose state is on disk, the service with its disk behaves as the
    service alone: each of the nine keyed methods ends with the same
    outcome, leaves the same service object and makes the same calls in
    the same order. *)
Theorem stored_refines_service (q : Request) w :
  request_resolvable q w ->
  let r := Stored.perform q w in
  let r0 := perform q (Stored.service w) in
  Stored.outcome r = outcome r0 /\
  Stored.service (Stored.world r) = final r0 /\
  Stored.calls r = (trace r0).*2.
Proof.
  destruct q as [k|k v|k|k|k v|k|k|k v|k];
    cbn [perform Stored.perform request_resolvable]; intros Hres; cbv zeta;
    unfold ignore, Stored.ignore.
  - destruct (providers (Stored.service w) !! k) eqn:H.
    + by rewrite (stored_get_provider_present _ _ _ H),
        (get_provider_present _ _ _ H).
    + by rewrite stored_get_provider_absent, get_provider_absent.
  - destruct (providers (Stored.service w) !! k) eqn:H.
    + by rewrite stored_register_provider_present,
        register_provider_present by eauto.
    + by rewrite stored_register_provider_fresh, register_provider_fresh.
  - destruct (providers (Stored.service w) !! k) eqn:H.
    + by rewrite (stored_delete_provider_present _ _ _ H),
        (delete_provider_present _ _ _ H).
    + by rewrite stored_delete_provider_absent, delete_provider_absent.
  - destruct (artifact_store_map (Stored.service w) !! k) eqn:H.
    + by rewrite (stored_get_artifact_store_present _ _ _ H (Hres _ H)),
        (get_artifact_store_present _ _ _ H).
    + by rewrite stored_get_artifact_store_absent, get_artifact_store_absent.
  - destruct (artifact_store_map (Stored.service w) !! k) eqn:H.
    + by rewrite stored_register_artifact_store_present,
        register_artifact_store_present by eauto.
    + by rewrite stored_register_artifact_store_fresh,
        register_artifact_store_fresh.
  - destruct (artifact_store_map (Stored.service w) !! k) eqn:H.
    + by rewrite (stored_delete_artifact_store_present _ _ _ H (Hres _ H)),
        (delete_artifact_store_present _ _ _ H).
    + by rewrite stored_delete_artifact_store_absent,
        delete_artifact_store_absent.
  - destruct (metadata_store_map (Stored.service w) !! k) eqn:H.
    + by rewrite (stored_get_metadata_store_present _ _ _ H (Hres _ H)),
        (get_metadata_store_present _ _ _ H).
    + by rewrite stored_get_metadata_store_absent, get_metadata_store_absent.
  - destruct (metadata_store_map (Stored.service w) !! k) eqn:H.
    + by rewrite stored_register_metadata_store_present,
        register_metadata_store_present by eauto.
    + by rewrite stored_register_metadata_store_fresh,
        register_metadata_store_fresh.
  - destruct (metadata_store_map (Stored.service w) !! k) eqn:H.
    + by rewrite (stored_delete_metadata_store_present _ _ _ H (Hres _ H)),
        (delete_metadata_store_present _ _ _ H).
    + by rewrite stored_delete_metadata_store_absent,
        delete_metadata_store_absent.
Qed.

(** ** What a keyed method raises *)

(** X2: no keyed method raises [KeyError], whatever is on disk: the
    dictionary subscript in [get_*] and the [del] statement in [delete_*]
    are only reached for a key the mapping holds. *)
Theorem request_never_raises_key_error (q : Request) w (e : PyException) :
  Stored.outcome (Stored.perform q w) = Raise e ->
  forall key, e <> KeyError key.
Proof.
  intros H key ->. revert H.
  destruct q as [k|k v|k|k|k v|k|k|k v|k]; cbn [Stored.perform];
    unfold Stored.ignore.
  - destruct (providers (Stored.service w) !! k) eqn:H.
    + by rewrite (stored_get_provider_present _ _ _ H).
    + by rewrite stored_get_provider_absent.
  - destruct (providers (Stored.service w) !! k) eqn:H.
    + by rewrite stored_register_provider_present by eauto.
    + by rewrite stored_register_provider_fresh.
  - destruct (providers (Stored.service w) !! k) eqn:H.
    + by rewrite (stored_delete_provider_present _ _ _ H).
    + by rewrite stored_delete_provider_absent.
  - destruct (artifact_store_map (Stored.service w) !! k) as [ref|] eqn:H.
    + destruct (decide (uuid ref ∈ Stored.components w)) as [Hin|Hin].
      * by rewrite (stored_get_artifact_store_present _ _ _ H Hin).
      * by rewrite (stored_get_artifact_store_destroyed _ _ _ H Hin).
    + by rewrite stored_get_artifact_store_absent.
  - destruct (artifact_store_map (Stored.service w) !! k) eqn:H.
    + by rewrite stored_register_artifact_store_present by eauto.
    + by rewrite stored_register_artifact_store_fresh.
  - destruct (artifact_store_map (Stored.service w) !! k) as [ref|] eqn:H.
    + destruct (decide (uuid ref ∈ Stored.components w)) as [Hin|Hin].
      * by rewrite (stored_delete_artifact_store_present _ _ _ H Hin).
      * by rewrite (stored_delete_artifact_store_destroyed _ _ _ H Hin).
    + by rewrite stored_delete_artifact_store_absent.
  - destruct (metadata_store_map (Stored.service w) !! k) as [ref|] eqn:H.
    + destruct (decide (uuid ref ∈ Stored.components w)) as [Hin|Hin].
      * by rewrite (stored_get_metadata_store_present _ _ _ H Hin).
      * by rewrite (stored_get_metadata_store_destroyed _ _ _ H Hin).
    + by rewrite stored_get_metadata_store_absent.
  - destruct (metadata_store_map (Stored.service w) !! k) eqn:H.
    + by rewrite stored_register_metadata_store_present by eauto.
    + by rewrite stored_register_metadata_store_fresh.
  - destruct (metadata_store_map (Stored.service w) !! k) as [ref|] eqn:H.
    + destruct (decide (uuid ref ∈ Stored.components w)) as [Hin|Hin].
      * by rewrite (stored_delete_metadata_store_present _ _ _ H Hin).
      * by rewrite (stored_delete_metadata_store_destroyed _ _ _ H Hin).
    + by rewrite stored_delete_metadata_store_absent.
Qed.

(** ** When a method succeeds, with what is on disk *)

(** X3: [get_provider] returns exactly when the key is in the provider
    mapping, and [delete_provider] likewise; a [register_*] method returns
    exactly when the key is not in its mapping; [get_*] and [delete_*] on a
    store return exactly when the key is in the mapping and the state of
    the instance its reference names is on disk (a key that is registered
    is not enough). *)
Theorem success_is_decided_by_key_and_disk w key :
  (forall provider,
     Stored.outcome (Stored.get_provider key w) = Return provider
     <-> providers (Stored.service w) !! key = Some provider) /\
  (forall c,
     Stored.outcome (Stored.get_artifact_store key w) = Return c
     <-> exists ref, artifact_store_map (Stored.service w) !! key = Some ref
                     /\ uuid ref ∈ Stored.components w
                     /\ c = component_of ref) /\
  (forall c,
     Stored.outcome (Stored.get_metadata_store key w) = Return c
     <-> exists ref, metadata_store_map (Stored.service w) !! key = Some ref
                     /\ uuid ref ∈ Stored.components w
                     /\ c = component_of ref) /\
  (forall provider,
     Stored.outcome (Stored.register_provider key provider w) = Return tt
     <-> providers (Stored.service w) !! key = None) /\
  (forall store,
     Stored.outcome (Stored.register_artifact_store key store w) = Return tt
     <-> artifact_store_map (Stored.service w) !! key = None) /\
  (forall store,
     Stored.outcome (Stored.register_metadata_store key store w) = Return tt
     <-> metadata_store_map (Stored.service w) !! key = None) /\
  (Stored.outcome (Stored.delete_provider key w) = Return tt
   <-> is_Some (providers (Stored.service w) !! key)) /\
  (Stored.outcome (Stored.delete_artifact_store key w) = Return tt
   <-> exists ref, artifact_store_map (Stored.service w) !! key = Some ref
                   /\ uuid ref ∈ Stored.components w) /\
  (Stored.outcome (Stored.delete_metadata_store key w) = Return tt
   <-> exists ref, metadata_store_map (Stored.service w) !! key = Some ref
                   /\ uuid ref ∈ Stored.components w).
Proof.
  split; [|split; [|split; [|split; [|split; [|split; [|split; [|split]]]]]]].
  - intros p. destruct (providers (Stored.service w) !! key) eqn:H.
    + rewrite (stored_get_provider_present _ _ _ H). sproject. split; congruence.
    + rewrite stored_get_provider_absent by done. sproject. split; congruence.
  - intros c.
    destruct (artifact_store_map (Stored.service w) !! key) as [ref|] eqn:H.
    + destruct (decide (uuid ref ∈ Stored.components w)) as [Hin|Hin].
      * rewrite (stored_get_artifact_store_present _ _ _ H Hin). sproject.
        split; [intros [= <-]; eauto|]. by intros (? & [= <-] & _ & ->).
      * rewrite (stored_get_artifact_store_destroyed _ _ _ H Hin). sproject.
        split; [done|]. by intros (? & [= <-] & ? & _).
    + rewrite stored_get_artifact_store_absent by done. sproject.
      split; [done|]. by intros (? & ? & _).
  - intros c.
    destruct (metadata_store_map (Stored.service w) !! key) as [ref|] eqn:H.
    + destruct (decide (uuid ref ∈ Stored.components w)) as [Hin|Hin].
      * rewrite (stored_get_metadata_store_present _ _ _ H Hin). sproject.
        split; [intros [= <-]; eauto|]. by intros (? & [= <-] & _ & ->).
      * rewrite (stored_get_metadata_store_destroyed _ _ _ H Hin). sproject.
        split; [done|]. by intros (? & [= <-] & ? & _).
    + rewrite stored_get_metadata_store_absent by done. sproject.
      split; [done|]. by intros (? & ? & _).
  - intros p. destruct (providers (Stored.service w) !! key) eqn:H.
    + rewrite stored_register_provider_present by eauto. sproject.
      split; congruence.
    + by rewrite stored_register_provider_fresh.
  - intros c. destruct (artifact_store_map (Stored.service w) !! key) eqn:H.
    + rewrite stored_register_artifact_store_present by eauto. sproject.
      split; congruence.
    + by rewrite stored_register_artifact_store_fresh.
  - intros c. destruct (metadata_store_map (Stored.service w) !! key) eqn:H.
    + rewrite stored_register_metadata_store_present by eauto. sproject.
      split; congruence.
    + by rewrite stored_register_metadata_store_fresh.
  - destruct (providers (Stored.service w) !! key) eqn:H.
    + rewrite (stored_delete_provider_present _ _ _ H). sproject. split; eauto.
    + rewrite stored_delete_provider_absent by done. sproject.
      split; [done|]. by intros [? ?].
  - destruct (artifact_store_map (Stored.service w) !! key) as [ref|] eqn:H.
    + destruct (decide (uuid ref ∈ Stored.components w)) as [Hin|Hin].
      * rewrite (stored_delete_artifact_store_present _ _ _ H Hin). sproject.
        split; eauto.
      * rewrite (stored_delete_artifact_store_destroyed _ _ _ H Hin). sproject.
        split; [done|]. by intros (? & [= <-] & ?).
    + rewrite stored_delete_artifact_store_absent by done. sproject.
      split; [done|]. by intros (? & ? & _).
  - destruct (metadata_store_map (Stored.service w) !! key) as [ref|] eqn:H.
    + destruct (decide (uuid ref ∈ Stored.components w)) as [Hin|Hin].
      * rewrite (stored_delete_metadata_store_present _ _ _ H Hin). sproject.
        split; eauto.
      * rewrite (stored_delete_metadata_store_destroyed _ _ _ H Hin). sproject.
        split; [done|]. by intros (? & [= <-] & ?).
    + rewrite stored_delete_metadata_store_absent by done. sproject.
      split; [done|]. by intros (? & ? & _).
Qed.

(** ** One store under two keys *)

(** X8: nothing stops one store from being registered under two keys.
    Deleting one of the keys destroys the state of the store and removes
    that key only.  The other key stays in the mapping, but it is of no
    use any more: [get_*] on it raises the resolver's error, [delete_*] on
    it raises the same error and changes nothing, and registering it again
    is refused. *)
Theorem shared_store_leaves_a_dead_entry w key1 key2 store :
  resolver_keeps_uuid ->
  key1 <> key2 ->
  (artifact_store_map (Stored.service w) !! key1 = None ->
   artifact_store_map (Stored.service w) !! key2 = None ->
   let r1 := Stored.register_artifact_store key1 store w in
   let r2 := Stored.register_artifact_store key2 store (Stored.world r1) in
   let r3 := Stored.delete_artifact_store key1 (Stored.world r2) in
   let w3 := Stored.world r3 in
   Stored.outcome r1 = Return tt /\ Stored.outcome r2 = Return tt /\
   Stored.outcome r3 = Return tt /\
   ComponentDelete (component_of (reference_of store)) ∈ Stored.calls r3 /\
   (component_uuid store ∉ Stored.components w3) /\
   artifact_store_map (Stored.service w3) !! key1 = None /\
   artifact_store_map (Stored.service w3) !! key2 = Some (reference_of store) /\
   Stored.outcome (Stored.get_artifact_store key2 w3)
     = Raise (ComponentError (component_uuid store)) /\
   Stored.outcome (Stored.delete_artifact_store key2 w3)
     = Raise (ComponentError (component_uuid store)) /\
   Stored.world (Stored.delete_artifact_store key2 w3) = w3 /\
   (forall store',
      exists msg, Stored.outcome (Stored.register_artifact_store key2 store' w3)
                  = Raise (AlreadyExistsException msg))) /\
  (metadata_store_map (Stored.service w) !! key1 = None ->
   metadata_store_map (Stored.service w) !! key2 = None ->
   let r1 := Stored.register_metadata_store key1 store w in
   let r2 := Stored.register_metadata_store key2 store (Stored.world r1) in
   let r3 := Stored.delete_metadata_store key1 (Stored.world r2) in
   let w3 := Stored.world r3 in
   Stored.outcome r1 = Return tt /\ Stored.outcome r2 = Return tt /\
   Stored.outcome r3 = Return tt /\
   ComponentDelete (component_of (reference_of store)) ∈ Stored.calls r3 /\
   (component_uuid store ∉ Stored.components w3) /\
   metadata_store_map (Stored.service w3) !! key1 = None /\
   metadata_store_map (Stored.service w3) !! key2 = Some (reference_of store) /\
   Stored.outcome (Stored.get_metadata_store key2 w3)
     = Raise (ComponentError (component_uuid store)) /\
   Stored.outcome (Stored.delete_metadata_store key2 w3)
     = Raise (ComponentError (component_uuid store)) /\
   Stored.world (Stored.delete_metadata_store key2 w3) = w3 /\
   (forall store',
      exists msg, Stored.outcome (Stored.register_metadata_store key2 store' w3)
                  = Raise (AlreadyExistsException msg))).
Proof.
  intros Hlaw Hne.
  assert (Hu : component_uuid (component_of (reference_of store))
               = component_uuid store) by apply Hlaw.
  split; intros H1 H2; cbv zeta.
  - rewrite (stored_register_artifact_store_fresh w key1) by done. sproject.
    rewrite (stored_register_artifact_store_fresh _ key2)
      by (cbn; by rewrite lookup_insert_ne).
    sproject. cbn [artifact_store_map set_artifact_store_map].
    erewrite (stored_delete_artifact_store_present _ key1);
      [|cbn; rewrite lookup_insert_ne by done; apply lookup_insert_eq
       |cbn; set_solver].
    sproject. cbn [artifact_store_map set_artifact_store_map]. rewrite Hu.
    assert (Hk2 : base.delete key1
              (<[key2:=reference_of store]>
                 (<[key1:=reference_of store]>
                    (artifact_store_map (Stored.service w)))) !! key2
            = Some (reference_of store)).
    { rewrite lookup_delete_ne by done. apply lookup_insert_eq. }
    split; [done|]. split; [done|]. split; [done|].
    split; [set_solver|]. split; [set_solver|].
    split; [apply lookup_delete_eq|]. split; [done|].
    erewrite stored_get_artifact_store_destroyed; [|exact Hk2|cbn; set_solver].
    erewrite stored_delete_artifact_store_destroyed;
      [|exact Hk2|cbn; set_solver].
    sproject. split; [done|]. split; [done|]. split; [done|].
    intros store'.
    rewrite stored_register_artifact_store_present by (cbn; eauto).
    by eexists.
  - rewrite (stored_register_metadata_store_fresh w key1) by done. sproject.
    rewrite (stored_register_metadata_store_fresh _ key2)
      by (cbn; by rewrite lookup_insert_ne).
    sproject. cbn [metadata_store_map set_metadata_store_map].
    erewrite (stored_delete_metadata_store_present _ key1);
      [|cbn; rewrite lookup_insert_ne by done; apply lookup_insert_eq
       |cbn; set_solver].
    sproject. cbn [metadata_store_map set_metadata_store_map]. rewrite Hu.
    assert (Hk2 : base.delete key1
              (<[key2:=reference_of store]>
                 (<[key1:=reference_of store]>
                    (metadata_store_map (Stored.service w)))) !! key2
            = Some (reference_of store)).
    { rewrite lookup_delete_ne by done. apply lookup_insert_eq. }
    split; [done|]. split; [done|]. split; [done|].
    split; [set_solver|]. split; [set_solver|].
    split; [apply lookup_delete_eq|]. split; [done|].
    erewrite stored_get_metadata_store_destroyed; [|exact Hk2|cbn; set_solver].
    erewrite stored_delete_metadata_store_destroyed;
      [|exact Hk2|cbn; set_solver].
    sproject. split; [done|]. split; [done|]. split; [done|].
    intros store'.
    rewrite stored_register_metadata_store_present by (cbn; eauto).
    by eexists.
Qed.

End Properties.

(** * The properties at work on the sample environment *)

Section Examples.
#[local] Existing Instance sample_environment.

(** Registering ["local"] again on [sample_service] is refused by each
    mapping, and each [get] still finds the first entry. *)
Lemma register_registered_key_raises_witness :
  (let r := register_provider "local" "gcp" sample_service in
   (exists msg, outcome r = Raise (AlreadyExistsException msg)) /\
   final r = sample_service /\
   outcome (get_provider "local" (final r)) = Return "aws") /\
  (let r := register_artifact_store "local" ("S3ArtifactStore", 9%N)
              sample_service in
   (exists msg, outcome r = Raise (AlreadyExistsException msg)) /\
   final r = sample_service /\
   outcome (get_artifact_store "local" (final r))
     = Return ("LocalArtifactStore", 2%N)) /\
  (let r := register_metadata_store "local" ("MySQLMetadataStore", 9%N)
              sample_service in
   (exists msg, outcome r = Raise (AlreadyExistsException msg)) /\
   final r = sample_service /\
   outcome (get_metadata_store "local" (final r))
     = Return ("SqliteMetadataStore", 1%N)).
Proof.
  cbv zeta.
  destruct (register_registered_key_raises sample_service "local")
    as (Hp & Ha & Hm).
  split; [|split].
  - destruct (Hp "aws" "gcp" eq_refl) as (H1 & H2 & _ & H4). auto.
  - destruct (Ha (mkUUIDSourceTuple 2%N "zenml.stores.LocalArtifactStore")
                ("S3ArtifactStore", 9%N) eq_refl) as (H1 & H2 & _ & H4). auto.
  - destruct (Hm (mkUUIDSourceTuple 1%N "zenml.stores.SqliteMetadataStore")
                ("MySQLMetadataStore", 9%N) eq_refl) as (H1 & H2 & _ & H4). auto.
Defined.

(** On [sample_service], whose mappings hold the key ["local"], asking any
    mapping for ["nope"] raises [DoesNotExistException]; the message names
    ["nope"] and lists ['local'] among the available keys. *)
Lemma absent_key_raises_does_not_exist_witness :
  let msg :=
    "Provider of key `nope` does not exist. Available keys: dict_keys(['local'])" in
  outcome (get_provider "nope" sample_service)
    = Raise (DoesNotExistException msg) /\
  outcome (delete_provider "nope" sample_service)
    = Raise (DoesNotExistException msg) /\
  outcome (get_artifact_store "nope" sample_service)
    = Raise (DoesNotExistException msg) /\
  outcome (delete_artifact_store "nope" sample_service)
    = Raise (DoesNotExistException msg) /\
  outcome (get_metadata_store "nope" sample_service)
    = Raise (DoesNotExistException msg) /\
  outcome (delete_metadata_store "nope" sample_service)
    = Raise (DoesNotExistException msg) /\
  mentions msg "nope" /\
  mentions msg "'local'".
Proof.
  cbv zeta.
  destruct (absent_key_raises_does_not_exist sample_service "nope")
    as (Hp & Ha & Hm & _).
  destruct (Hp eq_refl) as (H1 & H2 & _ & H3 & _ & H8).
  destruct (Ha eq_refl) as (H4 & H5 & _).
  destruct (Hm eq_refl) as (H6 & H7 & _).
  repeat apply conj; try assumption.
  exact (H8 "local" eq_refl).
Defined.

(** On the empty service, ["local"] can be registered in each mapping and is
    then found by [get]. *)
Lemma register_fresh_key_then_get_witness :
  (let r := register_provider "local" "aws" empty_service in
   outcome r = Return tt /\
   outcome (get_provider "local" (final r)) = Return "aws") /\
  (let r := register_artifact_store "local" ("LocalArtifactStore", 2%N)
              empty_service in
   outcome r = Return tt /\
   outcome (get_artifact_store "local" (final r))
     = Return ("LocalArtifactStore", 2%N)) /\
  (let r := register_metadata_store "local" ("SqliteMetadataStore", 1%N)
              empty_service in
   outcome r = Return tt /\
   outcome (get_metadata_store "local" (final r))
     = Return ("SqliteMetadataStore", 1%N)).
Proof.
  cbv zeta.
  destruct (register_fresh_key_then_get empty_service "local")
    as (Hp & Ha & Hm).
  split; [|split].
  - exact (Hp "aws" eq_refl).
  - destruct (Ha ("LocalArtifactStore", 2%N) eq_refl) as (H1 & _ & H3). auto.
  - destruct (Hm ("SqliteMetadataStore", 1%N) eq_refl) as (H1 & _ & H3). auto.
Defined.

(** Deleting ["local"] from [sample_service] works once in each mapping and
    raises the second time. *)
Lemma delete_twice_raises_witness :
  (exists msg,
     outcome (delete_provider "local"
                (final (delete_provider "local" sample_service)))
     = Raise (DoesNotExistException msg)) /\
  (exists msg,
     outcome (delete_artifact_store "local"
                (final (delete_artifact_store "local" sample_service)))
     = Raise (DoesNotExistException msg)) /\
  (exists msg,
     outcome (delete_metadata_store "local"
                (final (delete_metadata_store "local" sample_service)))
     = Raise (DoesNotExistException msg)).
Proof.
  destruct (delete_twice_raises sample_service "local") as (Hp & Ha & Hm).
  split; [|split].
  - exact (proj1 (Hp eq_refl)).
  - exact (proj1 (Ha eq_refl)).
  - exact (proj1 (Hm eq_refl)).
Defined.

(** The calls made when ["local"] is deleted from each mapping of
    [sample_service]. *)
Lemma delete_registered_key_effects_witness :
  (trace (delete_artifact_store "local" sample_service)).*2 =
    [Log DEBUG "Fetching artifact_store with key local";
     ComponentDelete ("LocalArtifactStore", 2%N);
     SelfUpdate;
     Log INFO "Deleted artifact_store with key: local."] /\
  (trace (delete_metadata_store "local" sample_service)).*2 =
    [Log DEBUG "Fetching metadata_store with key local";
     ComponentDelete ("SqliteMetadataStore", 1%N);
     SelfUpdate;
     Log INFO "Deleted metadata_store with key: local."] /\
  (trace (delete_provider "local" sample_service)).*2 =
    [Log DEBUG "Fetching provider with key local";
     SelfUpdate;
     Log INFO "Deleted provider with key: local."].
Proof.
  destruct (delete_registered_key_effects sample_service "local")
    as (Ha & Hm & Hp).
  split; [|split].
  - destruct (Ha _ eq_refl) as [_ ->]. reflexivity.
  - destruct (Hm _ eq_refl) as [_ ->]. reflexivity.
  - destruct (Hp _ eq_refl) as (_ & -> & _). reflexivity.
Defined.

(** The calls made when ["local"] is registered in each mapping of the
    empty service. *)
Lemma register_fresh_key_effects_witness :
  (artifact_store_map
     (final (register_artifact_store "local" ("LocalArtifactStore", 2%N)
               empty_service)) !! "local"
   = Some (mkUUIDSourceTuple 2%N "zenml.stores.LocalArtifactStore") /\
   (trace (register_artifact_store "local" ("LocalArtifactStore", 2%N)
             empty_service)).*2 =
     [Log INFO "Registering provider with key local, details: {'class': 'LocalArtifactStore'}";
      ComponentUpdate ("LocalArtifactStore", 2%N);
      ResolveClass "LocalArtifactStore";
      SelfUpdate]) /\
  (metadata_store_map
     (final (register_metadata_store "local" ("SqliteMetadataStore", 1%N)
               empty_service)) !! "local"
   = Some (mkUUIDSourceTuple 1%N "zenml.stores.SqliteMetadataStore") /\
   (trace (register_metadata_store "local" ("SqliteMetadataStore", 1%N)
             empty_service)).*2 =
     [Log INFO "Registering provider with key local, details: {'class': 'SqliteMetadataStore'}";
      ComponentUpdate ("SqliteMetadataStore", 1%N);
      ResolveClass "SqliteMetadataStore";
      SelfUpdate]) /\
  (trace (register_provider "local" "aws" empty_service)).*2 =
    [Log INFO "Registering provider with key local, details: {'name': 'aws'}";
     SelfUpdate].
Proof.
  destruct (register_fresh_key_effects empty_service "local")
    as (Ha & Hm & Hp).
  split; [|split].
  - destruct (Ha ("LocalArtifactStore", 2%N) eq_refl) as [Hl ->].
    split; [exact Hl | reflexivity].
  - destruct (Hm ("SqliteMetadataStore", 1%N) eq_refl) as [Hl ->].
    split; [exact Hl | reflexivity].
  - destruct (Hp "aws" eq_refl) as [_ ->]. reflexivity.
Defined.

(** Registering ["local"] on the empty service and deleting it again
    gives back the empty service, in each mapping. *)
Lemma register_then_delete_restores_witness :
  final (delete_provider "local"
           (final (register_provider "local" "aws" empty_service)))
  = empty_service /\
  final (delete_artifact_store "local"
           (final (register_artifact_store "local" ("LocalArtifactStore", 2%N)
                     empty_service)))
  = empty_service /\
  final (delete_metadata_store "local"
           (final (register_metadata_store "local" ("SqliteMetadataStore", 1%N)
                     empty_service)))
  = empty_service.
Proof.
  destruct (register_then_delete_restores empty_service "local")
    as (Hp & Ha & Hm).
  split; [|split].
  - exact (proj2 (proj2 (Hp "aws" eq_refl))).
  - exact (proj1 (proj2 (proj2 (Ha ("LocalArtifactStore", 2%N) eq_refl)))).
  - exact (proj1 (proj2 (proj2 (Hm ("SqliteMetadataStore", 1%N) eq_refl)))).
Defined.

(** Deleting ["local"] from [sample_service] and registering what was
    there gives back [sample_service]. *)
Lemma delete_then_register_reuses_key_witness :
  final (register_provider "local" "aws"
           (final (delete_provider "local" sample_service)))
  = sample_service /\
  final (register_artifact_store "local" ("LocalArtifactStore", 2%N)
           (final (delete_artifact_store "local" sample_service)))
  = sample_service /\
  final (register_metadata_store "local" ("SqliteMetadataStore", 1%N)
           (final (delete_metadata_store "local" sample_service)))
  = sample_service.
Proof.
  destruct (delete_then_register_reuses_key sample_service "local")
    as (Hp & Ha & Hm).
  split; [|split].
  - exact (proj2 (proj2 (proj2 (Hp "aws" "aws" eq_refl))) eq_refl).
  - exact (proj2 (proj2 (proj2
             (Ha (mkUUIDSourceTuple 2%N "zenml.stores.LocalArtifactStore")
                 ("LocalArtifactStore", 2%N) eq_refl))) eq_refl).
  - exact (proj2 (proj2 (proj2
             (Hm (mkUUIDSourceTuple 1%N "zenml.stores.SqliteMetadataStore")
                 ("SqliteMetadataStore", 1%N) eq_refl))) eq_refl).
Defined.

(** Registering or deleting ["other"] on [sample_service] leaves the entry
    of ["local"] in place. *)
Lemma other_keys_keep_their_entry_witness :
  providers (final (register_provider "other" "gcp" sample_service)) !! "local"
  = Some "aws" /\
  artifact_store_map
    (final (delete_artifact_store "other" sample_service)) !! "local"
  = Some (mkUUIDSourceTuple 2%N "zenml.stores.LocalArtifactStore").
Proof.
  assert (Hne : "local" <> "other") by discriminate.
  destruct (@other_keys_keep_their_entry sample_environment sample_service "other" "local" "gcp"
              ("S3ArtifactStore", 9%N) Hne) as (H1 & _ & _ & H4 & _).
  split; [exact H1 | exact H4].
Defined.

(** Two providers registered on the empty service in either order. *)
Lemma registrations_commute_witness :
  final (register_provider "b" "gcp"
           (final (register_provider "a" "aws" empty_service)))
  = final (register_provider "a" "aws"
             (final (register_provider "b" "gcp" empty_service))).
Proof.
  assert (Hne : "a" <> "b") by discriminate.
  exact (proj1 (@registrations_commute sample_environment empty_service "a" "b" "aws" "gcp"
                  ("LocalArtifactStore", 2%N) ("S3ArtifactStore", 9%N) Hne)).
Defined.

(** The entries of ["local"] in [sample_service] outlive a session that
    tries to register the key again and deletes another key. *)
Lemma entry_stays_until_deleted_witness :
  let qs : list (@Request sample_environment) :=
    [@RegisterProvider sample_environment "local" "gcp"; DeleteProvider "other";
     @RegisterArtifactStore sample_environment "local" ("S3ArtifactStore", 9%N);
     @RegisterMetadataStore sample_environment "local" ("MySQLMetadataStore", 9%N);
     GetProvider "local"] in
  providers (session qs sample_service).1 !! "local" = Some "aws" /\
  artifact_store_map (session qs sample_service).1 !! "local"
  = Some (mkUUIDSourceTuple 2%N "zenml.stores.LocalArtifactStore") /\
  metadata_store_map (session qs sample_service).1 !! "local"
  = Some (mkUUIDSourceTuple 1%N "zenml.stores.SqliteMetadataStore").
Proof.
  cbv zeta.
  destruct (@entry_stays_until_deleted sample_environment
              [@RegisterProvider sample_environment "local" "gcp"; DeleteProvider "other";
               @RegisterArtifactStore sample_environment "local" ("S3ArtifactStore", 9%N);
               @RegisterMetadataStore sample_environment "local" ("MySQLMetadataStore", 9%N);
               GetProvider "local"] sample_service "local") as (Hp & Ha & Hm).
  split; [|split].
  - apply (Hp "aws" eq_refl). intros Hin.
    repeat (apply elem_of_cons in Hin as [Hin|Hin]; [discriminate|]).
    by apply elem_of_nil in Hin.
  - apply (Ha _ eq_refl). intros Hin.
    repeat (apply elem_of_cons in Hin as [Hin|Hin]; [discriminate|]).
    by apply elem_of_nil in Hin.
  - apply (Hm _ eq_refl). intros Hin.
    repeat (apply elem_of_cons in Hin as [Hin|Hin]; [discriminate|]).
    by apply elem_of_nil in Hin.
Defined.

(** The scenario of ["m1"] and ["a1"] on the sample environment. *)
Lemma delete_leaves_nothing_retrievable_witness :
  let m := ("SqliteMetadataStore", 1%N) in
  let a := ("LocalArtifactStore", 2%N) in
  let w :=
    Stored.world (Stored.register_artifact_store "a1" a
      (Stored.world (Stored.register_metadata_store "m1" m Stored.empty_world))) in
  let w' := Stored.world (Stored.delete w) in
  Stored.outcome (Stored.get_metadata_store "m1" w) = Return m /\
  Stored.outcome (Stored.get_artifact_store "a1" w) = Return a /\
  Stored.outcome (Stored.delete w) = Return tt /\
  (1%N ∉ Stored.components w') /\ (2%N ∉ Stored.components w') /\
  Stored.record w' = None /\
  (exists e, Stored.outcome (Stored.get_metadata_store "m1" w') = Raise e) /\
  (exists e, Stored.outcome (Stored.get_artifact_store "a1" w') = Raise e).
Proof.
  cbv zeta.
  assert (Hlaw : @resolver_keeps_uuid sample_environment)
    by (intros cls u; reflexivity).
  assert (Hne : 1%N <> 2%N) by discriminate.
  destruct (@delete_leaves_nothing_retrievable sample_environment
              ("SqliteMetadataStore", 1%N) ("LocalArtifactStore", 2%N)
              Hlaw Hne)
    as ((_ & _ & _ & _ & _ & Hgm & Hga) & (Hd & _ & Hm & Ha & Hr) & Hafter).
  destruct (Hafter "m1" (or_introl eq_refl)) as (_ & _ & Hm1).
  destruct (Hafter "a1" (or_intror eq_refl)) as (_ & Ha1 & _).
  repeat apply conj; assumption.
Defined.

(** On [sample_world] the artifact store of ["local"] is on disk, and
    [get_artifact_store] does what it does on [sample_service] alone. *)
Lemma stored_refines_service_witness :
  Stored.outcome (Stored.perform (GetArtifactStore "local") sample_world)
  = outcome (perform (GetArtifactStore "local") sample_service) /\
  Stored.outcome (Stored.perform (GetArtifactStore "local") sample_world)
  = Return tt.
Proof.
  assert (Hres : request_resolvable (GetArtifactStore "local") sample_world).
  { intros ref Href. vm_compute in Href. injection Href as <-.
    by apply elem_of_singleton. }
  split.
  - exact (proj1 (stored_refines_service (GetArtifactStore "local")
                    sample_world Hres)).
  - reflexivity.
Defined.

(** On [sample_world] the metadata store of ["local"] is not on disk:
    [get_metadata_store] raises the resolver's error, not [KeyError]. *)
Lemma request_never_raises_key_error_witness :
  Stored.outcome (Stored.perform (GetMetadataStore "local") sample_world)
  = Raise (ComponentError 1%N) /\
  forall key, ComponentError 1%N <> KeyError key.
Proof.
  split; [reflexivity|].
  exact (request_never_raises_key_error (GetMetadataStore "local")
           sample_world (ComponentError 1%N) eq_refl).
Defined.

(** One artifact store registered as ["a"] and as ["b"] in the empty
    world: after ["a"] is deleted, ["b"] can neither be fetched nor
    deleted. *)
Lemma shared_store_leaves_a_dead_entry_witness :
  let store := ("LocalArtifactStore", 2%N) in
  let w3 :=
    Stored.world (Stored.delete_artifact_store "a"
      (Stored.world (Stored.register_artifact_store "b" store
         (Stored.world (Stored.register_artifact_store "a" store
            Stored.empty_world))))) in
  artifact_store_map (Stored.service w3) !! "b"
  = Some (mkUUIDSourceTuple 2%N "zenml.stores.LocalArtifactStore") /\
  Stored.outcome (Stored.get_artifact_store "b" w3)
  = Raise (ComponentError 2%N) /\
  Stored.outcome (Stored.delete_artifact_store "b" w3)
  = Raise (ComponentError 2%N).
Proof.
  cbv zeta.
  assert (Hlaw : @resolver_keeps_uuid sample_environment)
    by (intros cls u; reflexivity).
  assert (Hne : "a" <> "b") by discriminate.
  destruct (@shared_store_leaves_a_dead_entry sample_environment
              Stored.empty_world "a" "b" ("LocalArtifactStore", 2%N) Hlaw Hne)
    as (Ha & _).
  destruct (Ha eq_refl eq_refl)
    as (_ & _ & _ & _ & _ & _ & Hk & Hg & Hd & _).
  repeat apply conj; assumption.
Defined.

End Examples.
